(** * cron_checker.py and fcron_checker.py: reconciliation of declared jobs
      against scheduler logs

    The two scripts read log lines (and, for cron, the user's crontab), build
    a list [results] of dictionaries [{"job", "status", "message"}] and hand
    it to [send_discord_report], which derives the embed colour and the field
    list of the notification.

    Representation.  A Python [str] is a [string]; a character is a code point
    below 256, so [isspace] and the regular-expression class [\d] are given on
    that range.  The three status glyphs of the report lie above it and are
    carried as the bytes of their UTF-8 encoding; the program never inspects
    them.  The [status] key only ever holds one of three literals and is an
    enumeration here.  Loops that [append] to [results] are left folds that
    extend the list at its end. *)

From Stdlib Require Import String Ascii List Bool Arith NArith ZArith Lia.
From Stdlib Require Import Permutation DecimalString.
Import ListNotations.

Local Open Scope string_scope.
Local Open Scope list_scope.

(** ** The string operations of Python the scripts rely on *)

Module Py.

Definition nl : string := String (ascii_of_nat 10) "".

(** [str.isspace] on one character (code points below 256). *)
Definition isspace (c : ascii) : bool :=
  let n := N_of_ascii c in
  ((9 <=? n) && (n <=? 13) || (28 <=? n) && (n <=? 31)
   || (n =? 32) || (n =? 133) || (n =? 160))%N.

Definition is_empty (s : string) : bool :=
  match s with "" => true | String _ _ => false end.

(** [s.startswith(p)]. *)
Fixpoint startswith (p s : string) : bool :=
  match p, s with
  | "", _ => true
  | String a p', String b s' => Ascii.eqb a b && startswith p' s'
  | String _ _, "" => false
  end.

(** [sub in s]: some suffix of [s] starts with [sub]. *)
Fixpoint str_in (sub s : string) : bool :=
  startswith sub s
  || match s with
     | "" => false
     | String _ s' => str_in sub s'
     end.

(** [s.split()]: maximal runs of non-space characters, left to right.
    [tok] is the token being read. *)
Fixpoint split_from (tok s : string) : list string :=
  match s with
  | "" => if is_empty tok then [] else [tok]
  | String c s' =>
      if isspace c
      then if is_empty tok then split_from "" s' else tok :: split_from "" s'
      else split_from (tok ++ String c "") s'
  end.

Definition split (s : string) : list string := split_from "" s.

(** [sep.join(l)]. *)
Fixpoint join (sep : string) (l : list string) : string :=
  match l with
  | [] => ""
  | [x] => x
  | x :: rest => x ++ sep ++ join sep rest
  end.

Fixpoint lstrip (s : string) : string :=
  match s with
  | "" => ""
  | String c s' => if isspace c then lstrip s' else s
  end.

Fixpoint rstrip (s : string) : string :=
  match s with
  | "" => ""
  | String c s' =>
      let r := rstrip s' in
      if is_empty r && isspace c then "" else String c r
  end.

(** [s.strip()]. *)
Definition strip (s : string) : string := rstrip (lstrip s).

(** Line boundaries of [str.splitlines] (code points below 256). *)
Definition is_linebreak (c : ascii) : bool :=
  let n := N_of_ascii c in
  ((10 <=? n) && (n <=? 13) || (28 <=? n) && (n <=? 30) || (n =? 133))%N.

(** [s.splitlines()]: the breaks are dropped, a carriage return followed by
    a line feed is one break, and no empty last line is produced. *)
Fixpoint splitlines_from (cur s : string) : list string :=
  match s with
  | "" => if is_empty cur then [] else [cur]
  | String c s' =>
      if is_linebreak c
      then match s' with
           | String d s'' =>
               if (N_of_ascii c =? 13)%N && (N_of_ascii d =? 10)%N
               then cur :: splitlines_from "" s''
               else cur :: splitlines_from "" s'
           | "" => [cur]
           end
      else splitlines_from (cur ++ String c "") s'
  end.

Definition splitlines (s : string) : list string := splitlines_from "" s.

(** [bool(l)] of a list. *)
Definition truthy {A} (l : list A) : bool :=
  match l with [] => false | _ :: _ => true end.

(** [f.readlines()] on the text a file gives in text mode: every line keeps
    its line feed; a last line without one is kept when it is not empty. *)
Fixpoint readlines_from (cur s : string) : list string :=
  match s with
  | "" => if is_empty cur then [] else [cur]
  | String c s' =>
      if (N_of_ascii c =? 10)%N
      then (cur ++ String c "")%string :: readlines_from "" s'
      else readlines_from (cur ++ String c "") s'
  end.

Definition readlines (s : string) : list string := readlines_from "" s.

(** [l[-n:]] for a positive [n]: the last [n] elements, all of [l] when it
    has fewer. *)
Definition last_slice {A} (n : nat) (l : list A) : list A :=
  skipn (List.length l - n) l.

(** [bool(s)] of a string. *)
Definition str_truthy (s : string) : bool := negb (is_empty s).

End Py.

(** ** The regular-expression searches of the scripts

    Each [re.search] call of the sources is given as the leftmost-match search
    it performs; a search returns the captured group where the program reads
    one, and a boolean where it only tests for a match. *)

Module Re.

(** [re.search(r"(CRON|cron|fcron)", line)] as a truth value. *)
Definition search_cron_tokens (line : string) : bool :=
  Py.str_in "CRON" line || Py.str_in "cron" line || Py.str_in "fcron" line.

(** Lower case of a code point below 256, as [re.IGNORECASE] folds it. *)
Definition lower (c : ascii) : ascii :=
  let n := N_of_ascii c in
  if ((65 <=? n) && (n <=? 90)
      || (192 <=? n) && (n <=? 222) && negb (n =? 215))%N
  then ascii_of_N (n + 32)
  else c.

(** A lower-case literal [p] matched at the head of [s], ignoring case. *)
Fixpoint match_ignorecase (p s : string) : bool :=
  match p, s with
  | "", _ => true
  | String a p', String b s' => Ascii.eqb a (lower b) && match_ignorecase p' s'
  | String _ _, "" => false
  end.

(** [re.search(p, s, re.IGNORECASE)] for a lower-case literal [p], as a
    truth value. *)
Fixpoint search_ignorecase (p s : string) : bool :=
  match_ignorecase p s
  || match s with
     | "" => false
     | String _ s' => search_ignorecase p s'
     end.

(** [re.search(r"EXIT STATUS \(0\)", e)] as a truth value. *)
Definition search_exit_zero (e : string) : bool :=
  Py.str_in "EXIT STATUS (0)" e.

(** [re.search] with one group: the pattern, given by its match [m] at the
    head of a text, is tried at each position from the left; the first match
    gives the group. *)
Fixpoint search (m : string -> option string) (e : string) : option string :=
  match m e with
  | Some g => Some g
  | None => match e with
            | "" => None
            | String _ e' => search m e'
            end
  end.

(** What follows [p] when [s] starts with [p]. *)
Fixpoint strip_prefix (p s : string) : option string :=
  match p, s with
  | "", _ => Some s
  | String a p', String b s' =>
      if Ascii.eqb a b then strip_prefix p' s' else None
  | String _ _, "" => None
  end.

(** [(.*?)\)]: the shortest text up to a closing parenthesis; [.] does not
    match a line feed. *)
Fixpoint lazy_group (s : string) : option string :=
  match s with
  | "" => None
  | String c s' =>
      if Ascii.eqb c ")" then Some ""
      else if (N_of_ascii c =? 10)%N then None
      else option_map (String c) (lazy_group s')
  end.

(** [CMD \((.*?)\)] matched at the head of [s]: group 1. *)
Definition match_cmd (s : string) : option string :=
  match strip_prefix "CMD (" s with
  | Some rest => lazy_group rest
  | None => None
  end.

(** [re.search(r'CMD \((.*?)\)', e)]: group 1 of the leftmost match. *)
Definition search_cmd (e : string) : option string := search match_cmd e.

(** [\d] on code points below 256. *)
Definition isdigit (c : ascii) : bool :=
  let n := N_of_ascii c in ((48 <=? n) && (n <=? 57))%N.

(** The longest run of digits at the head of [s], and what follows it. *)
Fixpoint span_digits (s : string) : string * string :=
  match s with
  | "" => ("", "")
  | String c s' =>
      if isdigit c
      then let (d, r) := span_digits s' in (String c d, r)
      else ("", s)
  end.

(** [EXIT STATUS \((\d+)\)] matched at the head of [s]: group 1. *)
Definition match_exit (s : string) : option string :=
  match strip_prefix "EXIT STATUS (" s with
  | Some rest =>
      let (d, r) := span_digits rest in
      if negb (Py.is_empty d) && Py.startswith ")" r then Some d else None
  | None => None
  end.

(** [re.search(r'EXIT STATUS \((\d+)\)', e)]: group 1 of the leftmost
    match. *)
Definition search_exit (e : string) : option string := search match_exit e.

End Re.

(** ** The report: entries of [results] and the embed built from them *)

Module Report.

Inductive Status : Set := success | missing | failed.

Definition Status_eqb (a b : Status) : bool :=
  match a, b with
  | success, success | missing, missing | failed, failed => true
  | _, _ => false
  end.

(** One dictionary of [results]. *)
Record entry : Set := mk_entry
  { job : string; status : Status; message : string }.

(** One element of the embed's ["fields"]. *)
Record field : Set := mk_field
  { name : string; value : string; inline : bool }.

(** The part of the payload that depends on [results]; title, description
    and footer are fixed texts and a time stamp. *)
Record embed : Set := mk_embed
  { color : Z; fields : list field }.

Definition red : Z := 0xE74C3C.
Definition orange : Z := 0xE67E22.
Definition green : Z := 0x2ECC71.

Definition utf8 (l : list nat) : string :=
  string_of_list_ascii (map ascii_of_nat l).

Definition check_mark : string := utf8 [226; 156; 133].
Definition warning_sign : string := utf8 [226; 154; 160; 239; 184; 143].
Definition cross_mark : string := utf8 [226; 157; 140].

End Report.

(** ** The machine the scripts run on

    What [subprocess.check_output] and the file system answer.  A call that
    raises an exception the caller does not catch ends the script. *)

Module Os.

(** [subprocess.check_output(argv, ...)]: the text printed, a non-zero exit
    ([CalledProcessError]), or another exception, such as the utility not
    being installed. *)
Inductive run : Set :=
| Out (text : string)
| NonZero
| Fault.

(** A log file: [os.path.exists] is false, or opening or reading raises, or
    the text it holds as text mode delivers it. *)
Inductive log_file : Set :=
| Absent
| Unreadable
| Text (text : string).

Record system : Set := mk_system
  { check_output : list string -> run; path : string -> log_file }.

(** A call returns a value or raises. *)
Inductive outcome (A : Type) : Type :=
| Returns (a : A)
| Raises.

Arguments Returns {A} a.
Arguments Raises {A}.

End Os.

(** ** cron_checker.py *)

Module Cron.
Import Report.

Definition CHECK_MINUTES : nat := 10.

(** [str(n)] of a natural number. *)
Definition str_of_nat (n : nat) : string :=
  DecimalString.NilZero.string_of_uint (Nat.to_uint n).

Definition status_icon (r : entry) : string :=
  if Status_eqb (status r) success then check_mark
  else if Status_eqb (status r) missing then warning_sign
  else cross_mark.

(** The colour chosen at the head of [send_discord_report]. *)
Definition embed_color (results : list entry) : Z :=
  if existsb (fun r => Status_eqb (status r) failed) results then red
  else if existsb (fun r => Status_eqb (status r) missing) results then orange
  else green.

Definition embed_fields (results : list entry) : list field :=
  fold_left
    (fun fields r =>
       fields ++ [mk_field (status_icon r ++ " " ++ job r) (message r) false])
    results [].

(** [send_discord_report(results)]: the embed that is posted.  A failed
    post is caught and printed, so the call always returns. *)
Definition send_discord_report (results : list entry) : embed :=
  mk_embed (embed_color results) (embed_fields results).

(** What [subprocess.check_output] does for [crontab -l]. *)
Inductive crontab_run : Set :=
| Output (text : string)
| CalledProcessError.

(** The host as [get_crontab] sees it: whether [shutil.which("crontab")]
    finds the utility, and what running it gives. *)
Record host : Set := mk_host
  { which_crontab : bool; crontab_l : crontab_run }.

Definition get_crontab (h : host) : list string :=
  if negb (which_crontab h) then []
  else match crontab_l h with
       | Output output =>
           fold_left
             (fun jobs line =>
                if negb (Py.is_empty (Py.strip line))
                   && negb (Py.startswith "#" line)
                then jobs ++ [Py.strip line]
                else jobs)
             (Py.splitlines output) []
       | CalledProcessError => []
       end.

Definition parse_logs (logs : list string) : list string :=
  fold_left
    (fun events line =>
       if Re.search_cron_tokens line then events ++ [line] else events)
    logs [].

(** [" ".join(job.split()[5:])]. *)
Definition job_cmd (job : string) : string :=
  Py.join " " (skipn 5 (Py.split job)).

Definition no_crontab_entry : entry :=
  mk_entry "No user crontab" missing
    "No crontab entries found or 'crontab' command missing.".

Definition ran_entry (cmd : string) : entry :=
  mk_entry cmd success
    ("Ran successfully in last " ++ str_of_nat CHECK_MINUTES ++ " minutes.").

Definition not_run_entry (cmd : string) : entry :=
  mk_entry cmd missing "Did **not run** (but scheduled).".

Definition failure_entry (e : string) : entry :=
  mk_entry "Failure detected" failed
    ("```" ++ Py.nl ++ e ++ Py.nl ++ "```").

(** The body of the loop over [jobs]. *)
Definition job_step (events : list string) (results : list entry)
    (job : string) : list entry :=
  let cmd := job_cmd job in
  let ran := existsb (fun e => Py.str_in cmd e) events in
  if ran then results ++ [ran_entry cmd] else results ++ [not_run_entry cmd].

(** The body of the loop over [events]. *)
Definition failure_step (results : list entry) (e : string) : list entry :=
  if Py.str_in "EXIT STATUS" e && negb (Re.search_exit_zero e)
  then results ++ [failure_entry e]
  else results.

(** [results] as [main] has built it when it calls
    [send_discord_report], from the crontab lines and the raw log lines. *)
Definition main_results (jobs logs : list string) : list entry :=
  let events := parse_logs logs in
  let results := [] in
  let results :=
    if negb (Py.truthy jobs) then results ++ [no_crontab_entry]
    else results in
  let results := fold_left (job_step events) jobs results in
  fold_left failure_step events results.

Definition main (h : host) (logs : list string) : embed :=
  send_discord_report (main_results (get_crontab h) logs).

(** The loop of [detect_scheduler] over the services still to probe. *)
Fixpoint first_active (s : Os.system) (services : list string)
    : Os.outcome (option string) :=
  match services with
  | [] => Os.Returns None
  | svc :: rest =>
      match Os.check_output s ["systemctl"; "is-active"; "--quiet"; svc] with
      | Os.Out _ => Os.Returns (Some svc)
      | Os.NonZero => first_active s rest
      | Os.Fault => Os.Raises
      end
  end.

Definition services : list string :=
  ["cron.service"; "crond.service"; "fcron.service"].

Definition detect_scheduler (s : Os.system) : Os.outcome (option string) :=
  first_active s services.

Definition log_files : list string :=
  ["/var/log/syslog"; "/var/log/cron"; "/var/log/fcron.log"].

(** The fallback of [get_logs]: the last 500 lines of each log file that
    exists and can be read. *)
Definition read_log_files (s : Os.system) : list string :=
  fold_left
    (fun logs lf =>
       match Os.path s lf with
       | Os.Text text => logs ++ Py.last_slice 500 (Py.readlines text)
       | Os.Unreadable => logs
       | Os.Absent => logs
       end)
    log_files [].

Definition journal_argv (svc since : string) : list string :=
  ["journalctl"; "-u"; svc; "--since"; since; "--no-pager"].

Definition get_logs (s : Os.system) (minutes : nat)
    : Os.outcome (list string) :=
  match detect_scheduler s with
  | Os.Raises => Os.Raises
  | Os.Returns svc =>
      let since := (str_of_nat minutes ++ "m ago")%string in
      match svc with
      | Some name =>
          if Py.str_truthy name
          then match Os.check_output s (journal_argv name since) with
               | Os.Out output => Os.Returns (Py.splitlines output)
               | Os.NonZero => Os.Returns (read_log_files s)
               | Os.Fault => Os.Returns (read_log_files s)
               end
          else Os.Returns (read_log_files s)
      | None => Os.Returns (read_log_files s)
      end
  end.

(** [main()] on a machine: the crontab, the logs, the report. *)
Definition main_on (h : host) (s : Os.system) : Os.outcome embed :=
  let jobs := get_crontab h in
  match get_logs s CHECK_MINUTES with
  | Os.Raises => Os.Raises
  | Os.Returns logs => Os.Returns (send_discord_report (main_results jobs logs))
  end.

End Cron.

(** ** fcron_checker.py *)

Module Fcron.
Import Report.

Definition status_icon (r : entry) : string :=
  if Status_eqb (status r) success then check_mark
  else if Status_eqb (status r) missing then warning_sign
  else cross_mark.

Definition embed_color (results : list entry) : Z :=
  if existsb (fun r => Status_eqb (status r) failed) results then red
  else if existsb (fun r => Status_eqb (status r) missing) results then orange
  else green.

Definition embed_fields (results : list entry) : list field :=
  fold_left
    (fun fields r =>
       fields ++ [mk_field (status_icon r ++ " " ++ job r) (message r) false])
    results [].

Definition send_discord_report (results : list entry) : embed :=
  mk_embed (embed_color results) (embed_fields results).

Definition parse_fcron_logs (logs : list string) : list string :=
  fold_left
    (fun events line =>
       if Re.search_ignorecase "fcron" line then events ++ [line] else events)
    logs [].

Definition no_activity_entry : entry :=
  mk_entry "No fcron activity" missing
    "No fcron jobs ran in the last interval.".

Definition failed_entry (job_name e : string) : entry :=
  mk_entry job_name failed ("```" ++ Py.nl ++ e ++ Py.nl ++ "```").

Definition ran_entry (job_name : string) : entry :=
  mk_entry job_name success "Ran successfully.".

(** The entry the loop body appends for the event [e]. *)
Definition event_entry (e : string) : entry :=
  let job_match := Re.search_cmd e in
  let job_name :=
    match job_match with Some g => g | None => "Unknown job" end in
  if Py.str_in "EXIT STATUS" e
  then
    let exit_match := Re.search_exit e in
    match exit_match with
    | Some g =>
        if negb (String.eqb g "0") then failed_entry job_name e
        else ran_entry job_name
    | None => ran_entry job_name
    end
  else ran_entry job_name.

Definition main_results (logs : list string) : list entry :=
  let events := parse_fcron_logs logs in
  let results := [] in
  if negb (Py.truthy events) then results ++ [no_activity_entry]
  else fold_left (fun results e => results ++ [event_entry e]) events results.

Definition main (logs : list string) : embed :=
  send_discord_report (main_results logs).

Definition CHECK_MINUTES : nat := 10.

Definition journal_argv (since : string) : list string :=
  ["journalctl"; "-u"; "fcron.service"; "--since"; since; "--no-pager"].

Definition log_file : string := "/var/log/fcron.log".

Definition get_fcron_logs (s : Os.system) (minutes : nat) : list string :=
  let logs := [] in
  let logs :=
    match Os.check_output s
            (journal_argv (Cron.str_of_nat minutes ++ "m ago")%string) with
    | Os.Out output => logs ++ Py.splitlines output
    | Os.NonZero => logs
    | Os.Fault => logs
    end in
  match Os.path s log_file with
  | Os.Text text => logs ++ Py.last_slice 500 (Py.readlines text)
  | Os.Unreadable => logs
  | Os.Absent => logs
  end.

(** [main()] on a machine. *)
Definition main_on (s : Os.system) : embed :=
  main (get_fcron_logs s CHECK_MINUTES).

End Fcron.

(** ** The vocabulary of the specification

    Properties are stated with these notions: occurrence of one text in
    another, selection from a list, tokens of a line, the fields of an event
    and the severity of a report. *)

Module Spec.
Import Report.

(** [sub] occurs in [s] as a contiguous piece. *)
Definition Substring (sub s : string) : Prop :=
  exists pre post, s = (pre ++ sub ++ post)%string.

Fixpoint all_chars (p : ascii -> bool) (s : string) : bool :=
  match s with
  | "" => true
  | String c s' => p c && all_chars p s'
  end.

(** [kept] is [l] with exactly the elements satisfying [P] retained, in the
    order of [l]. *)
Inductive Selected {A} (P : A -> Prop) : list A -> list A -> Prop :=
| Selected_nil : Selected P [] []
| Selected_keep x l kept :
    P x -> Selected P l kept -> Selected P (x :: l) (x :: kept)
| Selected_drop x l kept :
    ~ P x -> Selected P l kept -> Selected P (x :: l) kept.

(** *** Whitespace-separated tokens *)

Definition blank (w : string) : Prop := all_chars Py.isspace w = true.

Definition word (t : string) : Prop :=
  t <> "" /\ all_chars (fun c => negb (Py.isspace c)) t = true.

(** Nothing, or something that starts with a space. *)
Definition separated (rest : string) : Prop :=
  match rest with
  | "" => True
  | String c _ => Py.isspace c = true
  end.

(** [Tokens s toks]: [s] is the words [toks], in order, with blank text
    before, between and after them. *)
Inductive Tokens : string -> list string -> Prop :=
| Tokens_blank w : blank w -> Tokens w []
| Tokens_word w t rest toks :
    blank w -> word t -> separated rest -> Tokens rest toks ->
    Tokens (w ++ t ++ rest) (t :: toks).

(** *** Relevance of a log line *)

Definition cron_relevant (line : string) : Prop :=
  Substring "CRON" line \/ Substring "cron" line \/ Substring "fcron" line.

(** The upper-case form of a lower-case ASCII letter. *)
Definition upper (a : ascii) : ascii := ascii_of_N (N_of_ascii a - 32).

(** [m] spells [p], letter by letter, in either case. *)
Fixpoint spells (p m : string) : Prop :=
  match p, m with
  | "", "" => True
  | String a p', String b m' => (b = a \/ b = upper a) /\ spells p' m'
  | _, _ => False
  end.

Definition fcron_relevant (line : string) : Prop :=
  exists pre mid post,
    line = (pre ++ mid ++ post)%string /\ spells "fcron" mid.

(** *** The failure marker of the cron flavour *)

Definition marks_failure (e : string) : Prop :=
  Substring "EXIT STATUS" e /\ ~ Substring "EXIT STATUS (0)" e.

(** *** The fields of a log event *)

(** A token, given by what a text that starts with it looks like ([M s g]:
    [s] starts with the token whose enclosed text is [g]), found in [e]
    after [n] characters. *)
Definition token_at (M : string -> string -> Prop) (e : string) (n : nat)
    (g : string) : Prop :=
  exists pre s, e = (pre ++ s)%string /\ String.length pre = n /\ M s g.

(** The enclosed text of the first such token of [e]. *)
Definition first_token (M : string -> string -> Prop) (e g : string) : Prop :=
  exists n, token_at M e n g /\ forall m g', token_at M e m g' -> n <= m.

Definition no_token (M : string -> string -> Prop) (e : string) : Prop :=
  forall n g, ~ token_at M e n g.

(** [s] starts with [CMD (g)]; the enclosed text runs to the first closing
    parenthesis and stays on the line. *)
Definition cmd_head (s g : string) : Prop :=
  exists post,
    s = ("CMD (" ++ g ++ ")" ++ post)%string
    /\ all_chars (fun c => negb (Ascii.eqb c ")") && negb (N_of_ascii c =? 10)%N)
         g = true.

Definition number (d : string) : Prop :=
  d <> "" /\ all_chars Re.isdigit d = true.

(** [s] starts with [EXIT STATUS (d)], [d] a number. *)
Definition exit_head (s d : string) : Prop :=
  exists post, s = ("EXIT STATUS (" ++ d ++ ")" ++ post)%string /\ number d.

(** The job identifier of an event, when it has one. *)
Definition cmd_text : string -> string -> Prop := first_token cmd_head.

(** The exit-status text of an event, when it has one. *)
Definition exit_text : string -> string -> Prop := first_token exit_head.

(** The integer a number denotes. *)
Fixpoint int_from (acc : N) (d : string) : N :=
  match d with
  | "" => acc
  | String c d' => int_from (10 * acc + (N_of_ascii c - 48)) d'
  end.

Definition int (d : string) : N := int_from 0 d.

(** The exit code of an event, an integer. *)
Definition exit_code (e : string) (n : N) : Prop :=
  exists d, exit_text e d /\ int d = n.

(** *** The entry of an event, fcron flavour *)

Definition fenced (e : string) : string :=
  ("```" ++ Py.nl ++ e ++ Py.nl ++ "```")%string.

(** The label of the entry [r] of the event [e]. *)
Definition labelled (e : string) (r : entry) : Prop :=
  (forall g, cmd_text e g -> job r = g)
  /\ (no_token cmd_head e -> job r = "Unknown job").

(** Status and message by the exit code, an integer. *)
Definition classified_by_code (e : string) (r : entry) : Prop :=
  (forall n, exit_code e n -> n <> 0%N ->
     status r = failed /\ Substring e (message r))
  /\ (exit_code e 0%N ->
      status r = success /\ message r = "Ran successfully.")
  /\ (no_token exit_head e ->
      status r = success /\ message r = "Ran successfully.").

(** Status and message by the exit-status text. *)
Definition classified_by_text (e : string) (r : entry) : Prop :=
  (forall d, exit_text e d -> d <> "0" ->
     status r = failed /\ message r = fenced e /\ Substring e (message r))
  /\ (exit_text e "0" ->
      status r = success /\ message r = "Ran successfully.")
  /\ (no_token exit_head e ->
      status r = success /\ message r = "Ran successfully.").

(** *** The entries of the cron flavour *)

(** The entry the loop over [jobs] adds for one job. *)
Definition job_entry (events : list string) (job : string) : entry :=
  let cmd := Cron.job_cmd job in
  if existsb (fun e => Py.str_in cmd e) events
  then Cron.ran_entry cmd else Cron.not_run_entry cmd.

(** The entries of the report that stand for the declared jobs: the
    synthetic entry comes first only when there is no job. *)
Definition per_job_entries (jobs logs : list string) : list entry :=
  firstn (List.length jobs) (Cron.main_results jobs logs).

(** *** The severity of a report *)

Definition has_status (s : Status) (results : list entry) : Prop :=
  exists r, In r results /\ status r = s.

(** The overall severity an embed shows, read off its colour. *)
Definition overall_severity (e : embed) : option Status :=
  if (color e =? red)%Z then Some failed
  else if (color e =? orange)%Z then Some missing
  else if (color e =? green)%Z then Some success
  else None.

(** [Failed] before [Missing] before [Success]. *)
Definition by_priority (sev : option Status) (results : list entry) : Prop :=
  (sev = Some failed <-> has_status failed results)
  /\ (sev = Some missing
      <-> ~ has_status failed results /\ has_status missing results)
  /\ (sev = Some success
      <-> ~ has_status failed results /\ ~ has_status missing results).

(** The field a result becomes. *)
Definition field_of (icon : entry -> string) (r : entry) : field :=
  mk_field (icon r ++ " " ++ job r) (message r) false.

(** *** Lines, files and probes *)

Definition no_linebreak (s : string) : Prop :=
  all_chars (fun c => negb (Py.is_linebreak c)) s = true.

(** Neither the first nor the last character is a space. *)
Definition trimmed (s : string) : Prop :=
  (forall c rest, s = String c rest -> Py.isspace c = false)
  /\ (forall pre c, s = (pre ++ String c "")%string -> Py.isspace c = false).

(** A line as a file gives it: not empty, with no line feed but possibly a
    last one. *)
Definition file_line (line : string) : Prop :=
  exists body,
    all_chars (fun c => negb (N_of_ascii c =? 10)%N) body = true
    /\ (line = (body ++ Py.nl)%string \/ (line = body /\ body <> "")).

(** What a log file adds to the logs. *)
Definition file_tail (f : Os.log_file) : list string :=
  match f with
  | Os.Text text => Py.last_slice 500 (Py.readlines text)
  | Os.Unreadable => []
  | Os.Absent => []
  end.

Definition text_suffix (t s : string) : Prop :=
  exists pre, s = (pre ++ t)%string.

(** The answer to [systemctl is-active --quiet svc]. *)
Definition probe (s : Os.system) (svc : string) : Os.run :=
  Os.check_output s ["systemctl"; "is-active"; "--quiet"; svc].

Definition inactive (s : Os.system) (svc : string) : Prop :=
  probe s svc = Os.NonZero.

Definition active (s : Os.system) (svc : string) : Prop :=
  exists text, probe s svc = Os.Out text.

(** The journal of a unit answers with [output]. *)
Definition journal_gives (s : Os.system) (svc : string) (minutes : nat)
    (output : string) : Prop :=
  Os.check_output s
    ["journalctl"; "-u"; svc; "--since";
     (Cron.str_of_nat minutes ++ "m ago")%string; "--no-pager"]
  = Os.Out output.

(** *** The failure marker, occurrence by occurrence *)

(** Some occurrence of [EXIT STATUS] in [e] is not followed at once by
    [ (0)]. *)
Definition marker_without_zero (e : string) : Prop :=
  exists pre post,
    e = (pre ++ "EXIT STATUS" ++ post)%string
    /\ ~ (exists rest, post = (" (0)" ++ rest)%string).

End Spec.

(** ** Sample machines *)

Module Sample.

(** A machine without [systemctl] and without log files. *)
Definition bare : Os.system :=
  Os.mk_system (fun _ => Os.Fault) (fun _ => Os.Absent).

(** A machine where crond is the active scheduler and its journal answers;
    it also has a syslog file. *)
Definition with_crond : Os.system :=
  Os.mk_system
    (fun argv =>
       match argv with
       | ["systemctl"; "is-active"; "--quiet"; svc] =>
           if (svc =? "crond.service")%string then Os.Out "" else Os.NonZero
       | "journalctl" :: _ =>
           Os.Out ("Nov 04 10:00:01 box CRON[1]: (root) CMD (/usr/bin/backup.sh)"
                     ++ Py.nl ++ "Nov 04 10:00:02 box crond[2]: reloaded")
       | _ => Os.Fault
       end)
    (fun p =>
       if (p =? "/var/log/syslog")%string
       then Os.Text ("old line" ++ Py.nl)
       else Os.Absent).

(** A machine with no active scheduler and no journal, whose logs are in
    files. *)
Definition with_files : Os.system :=
  Os.mk_system
    (fun argv =>
       match argv with
       | ["systemctl"; "is-active"; "--quiet"; _] => Os.NonZero
       | _ => Os.Fault
       end)
    (fun p =>
       if (p =? "/var/log/syslog")%string
       then Os.Text ("cron[7]: (root) CMD (job1)" ++ Py.nl
                       ++ "cron[7]: EXIT STATUS (2)")
       else if (p =? "/var/log/cron")%string then Os.Unreadable
       else Os.Absent).

(** A crontab with a comment, an indented comment and one job. *)
Definition commented : Cron.host :=
  Cron.mk_host true
    (Cron.Output
       ("# backups" ++ Py.nl ++ "  # nightly" ++ Py.nl
          ++ " */5 * * * * /usr/bin/backup.sh  -q " ++ Py.nl)).

(** A machine whose every command answers with no text, without log
    files. *)
Definition silent : Os.system :=
  Os.mk_system (fun _ => Os.Out "") (fun _ => Os.Absent).

End Sample.

(** * Properties *)

(** ** Strings *)

Lemma append_assoc (a b c : string) :
  ((a ++ b) ++ c = a ++ (b ++ c))%string.
Proof. induction a as [|x a IH]; simpl; [reflexivity | now rewrite IH]. Qed.

Lemma append_nil_r (a : string) : (a ++ "")%string = a.
Proof. induction a as [|x a IH]; simpl; [reflexivity | now rewrite IH]. Qed.

Lemma length_append (a b : string) :
  String.length (a ++ b) = String.length a + String.length b.
Proof. induction a as [|x a IH]; simpl; [reflexivity | now rewrite IH]. Qed.

Lemma startswith_spec (p s : string) :
  Py.startswith p s = true <-> exists post, s = (p ++ post)%string.
Proof.
  revert s; induction p as [|a p IH]; intros s; simpl.
  - split; [intros _; now exists s | reflexivity].
  - destruct s as [|b s].
    + split; [discriminate | intros [post H]; discriminate H].
    + rewrite andb_true_iff, Ascii.eqb_eq, IH. split.
      * intros [-> [post ->]]. now exists post.
      * intros [post H]. injection H as -> ->. split; [reflexivity | now exists post].
Qed.

Lemma str_in_spec (sub s : string) :
  Py.str_in sub s = true <-> Spec.Substring sub s.
Proof.
  unfold Spec.Substring. induction s as [|c s IH].
  - simpl. rewrite orb_false_r, startswith_spec. split.
    + intros [post H]. now exists "", post.
    + intros [[|x pre] [post H]]; [now exists post | discriminate H].
  - change (Py.str_in sub (String c s))
      with (Py.startswith sub (String c s) || Py.str_in sub s).
    rewrite orb_true_iff, startswith_spec, IH. split.
    + intros [[post H] | [pre [post H]]].
      * now exists "", post.
      * exists (String c pre), post. simpl. now rewrite H.
    + intros [[|x pre] [post H]].
      * left. now exists post.
      * right. simpl in H. injection H as -> ->. now exists pre, post.
Qed.

Lemma str_in_empty (s : string) : Py.str_in "" s = true.
Proof. destruct s; reflexivity. Qed.

Lemma Substring_refl_mid (a s b : string) : Spec.Substring s (a ++ s ++ b).
Proof. now exists a, b. Qed.

(** ** [str.split] cuts a line into its tokens *)

Lemma all_chars_append (p : ascii -> bool) (a b : string) :
  Spec.all_chars p (a ++ b) = Spec.all_chars p a && Spec.all_chars p b.
Proof.
  induction a as [|x a IH]; simpl; [reflexivity |].
  now rewrite IH, andb_assoc.
Qed.

Lemma Tokens_space (c : ascii) (s : string) (toks : list string) :
  Py.isspace c = true -> Spec.Tokens s toks -> Spec.Tokens (String c s) toks.
Proof.
  intros Hc H. destruct H as [w Hw | w t rest toks Hw Ht Hr H].
  - apply Spec.Tokens_blank. unfold Spec.blank in *. simpl. now rewrite Hc, Hw.
  - change (String c (w ++ t ++ rest)) with (String c w ++ t ++ rest)%string.
    apply Spec.Tokens_word; trivial.
    unfold Spec.blank in *. simpl. now rewrite Hc, Hw.
Qed.

(** Reading on with a token under way: the token grows by a word-piece [t]
    and the rest is cut from the separator on. *)
Lemma split_from_spec (s : string) :
  Spec.Tokens s (Py.split_from "" s)
  /\ forall tok, tok <> "" ->
       exists t rest toks,
         s = (t ++ rest)%string
         /\ Spec.all_chars (fun c => negb (Py.isspace c)) t = true
         /\ Spec.separated rest
         /\ Spec.Tokens rest toks
         /\ Py.split_from tok s = (tok ++ t)%string :: toks.
Proof.
  induction s as [|c s [IH0 IH1]].
  - split.
    + now apply Spec.Tokens_blank.
    + intros tok Htok. exists "", "", []. simpl.
      rewrite append_nil_r. repeat split.
      * now apply Spec.Tokens_blank.
      * destruct tok; [contradiction | reflexivity].
  - split.
    + simpl. destruct (Py.isspace c) eqn:Hc.
      * now apply Tokens_space.
      * destruct (IH1 (String c "")) as (t & rest & toks & -> & Ht & Hr & HT & ->).
        { discriminate. }
        change (String c (t ++ rest)) with ("" ++ String c t ++ rest)%string.
        apply Spec.Tokens_word; trivial.
        -- reflexivity.
        -- split; [discriminate |]. simpl. now rewrite Hc, Ht.
    + intros tok Htok. simpl. destruct (Py.isspace c) eqn:Hc.
      * exists "", (String c s), (Py.split_from "" s). simpl.
        rewrite append_nil_r. repeat split; trivial.
        -- now apply Tokens_space.
        -- destruct tok; [contradiction | reflexivity].
      * destruct (IH1 (tok ++ String c "")%string)
          as (t & rest & toks & -> & Ht & Hr & HT & ->).
        { destruct tok; discriminate. }
        exists (String c t), rest, toks. simpl. rewrite Hc, Ht.
        repeat split; trivial.
        now rewrite append_assoc.
Qed.

Lemma split_Tokens (s : string) : Spec.Tokens s (Py.split s).
Proof. apply split_from_spec. Qed.

Lemma split_from_blank (w s : string) :
  Spec.blank w -> Py.split_from "" (w ++ s) = Py.split_from "" s.
Proof.
  unfold Spec.blank. induction w as [|c w IH]; simpl; [reflexivity |].
  intros H. apply andb_true_iff in H as [Hc Hw]. rewrite Hc. now apply IH.
Qed.

Lemma split_from_word (t : string) :
  Spec.all_chars (fun c => negb (Py.isspace c)) t = true ->
  forall tok s, Py.split_from tok (t ++ s) = Py.split_from (tok ++ t) s.
Proof.
  induction t as [|c t IH]; simpl; intros H tok s.
  - now rewrite append_nil_r.
  - apply andb_true_iff in H as [Hc Ht]. apply negb_true_iff in Hc.
    rewrite Hc, (IH Ht), append_assoc. reflexivity.
Qed.

(** The tokens of a line are unique: they are what [split] returns. *)
Lemma Tokens_split (s : string) (toks : list string) :
  Spec.Tokens s toks -> Py.split s = toks.
Proof.
  unfold Py.split. induction 1 as [w Hw | w t rest toks Hw [Hne Ht] Hr _ IH].
  - rewrite <- (append_nil_r w), (split_from_blank _ _ Hw). reflexivity.
  - rewrite (split_from_blank _ _ Hw), (split_from_word _ Ht). simpl.
    destruct rest as [|c rest]; simpl in *.
    + destruct t; [contradiction |]. simpl. now rewrite <- IH.
    + rewrite Hr in *. destruct t; [contradiction |]. simpl. now rewrite IH.
Qed.

(** ** Loops that append *)

Lemma fold_append_flat_map {A B} (f : A -> list B) (l : list A) (init : list B) :
  fold_left (fun acc x => acc ++ f x) l init = init ++ flat_map f l.
Proof.
  revert init. induction l as [|x l IH]; intros init; simpl.
  - now rewrite app_nil_r.
  - now rewrite IH, app_assoc.
Qed.

Lemma fold_append_map {A B} (f : A -> B) (l : list A) (init : list B) :
  fold_left (fun acc x => acc ++ [f x]) l init = init ++ map f l.
Proof.
  revert init. induction l as [|x l IH]; intros init; simpl.
  - now rewrite app_nil_r.
  - now rewrite IH, <- app_assoc.
Qed.

Lemma fold_append_filter {A B} (p : A -> bool) (f : A -> B) (l : list A)
    (init : list B) :
  fold_left (fun acc x => if p x then acc ++ [f x] else acc) l init
  = init ++ map f (filter p l).
Proof.
  revert init. induction l as [|x l IH]; intros init; simpl.
  - now rewrite app_nil_r.
  - rewrite IH. destruct (p x); simpl; [now rewrite <- app_assoc | reflexivity].
Qed.

Lemma fold_left_pointwise {A B} (f g : B -> A -> B) (l : list A) (init : B) :
  (forall acc x, f acc x = g acc x) -> fold_left f l init = fold_left g l init.
Proof.
  intros H. revert init. induction l as [|x l IH]; intros init; simpl.
  - reflexivity.
  - now rewrite H, IH.
Qed.

Lemma filter_Selected {A} (p : A -> bool) (P : A -> Prop) (l : list A) :
  (forall x, p x = true <-> P x) -> Spec.Selected P l (filter p l).
Proof.
  intros Hp. induction l as [|x l IH]; simpl.
  - constructor.
  - destruct (p x) eqn:E.
    + apply Spec.Selected_keep; [now apply Hp | exact IH].
    + apply Spec.Selected_drop; [| exact IH].
      intros HP. apply Hp in HP. congruence.
Qed.

(** What is selected is determined by the list and the property. *)
Lemma Selected_unique {A} (P : A -> Prop) (l k1 k2 : list A) :
  Spec.Selected P l k1 -> Spec.Selected P l k2 -> k1 = k2.
Proof.
  intros H1. revert k2. induction H1 as [| x l k HP _ IH | x l k HP _ IH];
    intros k2 H2; inversion H2; subst; try contradiction; trivial.
  - f_equal. now apply IH.
  - now apply IH.
Qed.

Lemma Selected_In {A} (P : A -> Prop) (l kept : list A) :
  Spec.Selected P l kept -> forall x, In x kept <-> In x l /\ P x.
Proof.
  induction 1 as [| x l k HP _ IH | x l k HP _ IH]; intros y; simpl.
  - tauto.
  - rewrite IH. split.
    + intros [<- | [H1 H2]]; auto.
    + intros [[<- | H1] H2]; auto.
  - rewrite IH. split.
    + intros [H1 H2]; auto.
    + intros [[<- | H1] H2]; [contradiction | auto].
Qed.

(** ** Leftmost search *)

Lemma append_same_length (a b c d : string) :
  (a ++ b)%string = (c ++ d)%string -> String.length a = String.length c ->
  a = c /\ b = d.
Proof.
  revert c. induction a as [|x a IH]; intros [|y c]; simpl; try discriminate.
  - auto.
  - intros H L. injection H as -> H. injection L as L.
    destruct (IH _ H L) as [-> ->]. auto.
Qed.

Section Leftmost.
Variable m : string -> option string.
Variable M : string -> string -> Prop.
Hypothesis m_spec : forall s g, m s = Some g <-> M s g.

Lemma m_none (s : string) : m s = None <-> forall g, ~ M s g.
Proof.
  split.
  - intros H g HM. apply m_spec in HM. congruence.
  - intros H. destruct (m s) as [g|] eqn:E; [| reflexivity].
    apply m_spec in E. now apply H in E.
Qed.

Lemma search_none (e : string) :
  Re.search m e = None <-> Spec.no_token M e.
Proof.
  unfold Spec.no_token, Spec.token_at. induction e as [|c e IH]; simpl.
  - destruct (m "") as [g|] eqn:E.
    + split; [discriminate |]. intros H. exfalso.
      apply (H 0 g). exists "", "". repeat split. now apply m_spec.
    + split; [| reflexivity]. intros _ n g (pre & s & H & _ & HM).
      destruct pre; [| discriminate H]. simpl in H. subst s.
      apply m_spec in HM. congruence.
  - destruct (m (String c e)) as [g|] eqn:E.
    + split; [discriminate |]. intros H. exfalso.
      apply (H 0 g). exists "", (String c e). repeat split. now apply m_spec.
    + rewrite IH. split.
      * intros H n g (pre & s & Heq & Hn & HM). destruct pre as [|x pre].
        -- simpl in Heq. subst s. apply m_spec in HM. congruence.
        -- simpl in Heq. injection Heq as -> ->.
           apply (H (String.length pre) g). now exists pre, s.
      * intros H n g (pre & s & -> & Hn & HM).
        apply (H (S n) g). exists (String c pre), s. simpl. now rewrite Hn.
Qed.

Lemma search_some (e g : string) :
  Re.search m e = Some g <-> Spec.first_token M e g.
Proof.
  unfold Spec.first_token, Spec.token_at. revert g.
  induction e as [|c e IH]; intros g; simpl.
  - destruct (m "") as [g0|] eqn:E.
    + split.
      * intros [= <-]. exists 0. split; [| intros; lia].
        exists "", "". repeat split. now apply m_spec.
      * intros (n & (pre & s & H & _ & HM) & _).
        destruct pre; [| discriminate H]. simpl in H. subst s.
        apply m_spec in HM. congruence.
    + split; [discriminate |].
      intros (n & (pre & s & H & _ & HM) & _).
      destruct pre; [| discriminate H]. simpl in H. subst s.
      apply m_spec in HM. congruence.
  - destruct (m (String c e)) as [g0|] eqn:E.
    + split.
      * intros [= <-]. exists 0. split; [| intros; lia].
        exists "", (String c e). repeat split. now apply m_spec.
      * intros (n & (pre & s & Heq & Hn & HM) & Hmin).
        assert (H0 : n <= 0).
        { apply (Hmin 0 g0). exists "", (String c e). repeat split.
          now apply m_spec. }
        destruct pre as [|x pre]; [| simpl in Hn; lia].
        simpl in Heq. subst s. apply m_spec in HM. congruence.
    + rewrite IH. split.
      * intros (n & (pre & s & -> & Hn & HM) & Hmin). exists (S n). split.
        -- exists (String c pre), s. simpl. now rewrite Hn.
        -- intros k g' (pre' & s' & Heq & Hk & HM'). destruct pre' as [|x pre'].
           ++ simpl in Heq. subst s'. apply m_spec in HM'. congruence.
           ++ simpl in Heq. injection Heq as -> Heq. simpl in Hk.
              assert (n <= String.length pre'); [| lia].
              apply (Hmin _ g'). now exists pre', s'.
      * intros (n & (pre & s & Heq & Hn & HM) & Hmin). destruct pre as [|x pre].
        -- simpl in Heq. subst s. apply m_spec in HM. congruence.
        -- simpl in Heq. injection Heq as -> ->. exists (String.length pre). split.
           ++ now exists pre, s.
           ++ intros k g' (pre' & s' & Heq & Hk & HM').
              assert (n <= S k); [| simpl in Hn; lia].
              apply (Hmin _ g'). exists (String x pre'), s'. simpl.
              now rewrite Heq, Hk.
Qed.

(** A text has a first token or none, never both. *)
Lemma first_token_unique (e g g' : string) :
  Spec.first_token M e g -> Spec.first_token M e g' -> g = g'.
Proof. rewrite <- !search_some. congruence. Qed.

Lemma first_or_none (e : string) :
  (exists g, Spec.first_token M e g) \/ Spec.no_token M e.
Proof.
  destruct (Re.search m e) as [g|] eqn:E.
  - left. exists g. now apply search_some.
  - right. now apply search_none.
Qed.

End Leftmost.

(** ** The two patterns with a group *)

Lemma strip_prefix_spec (p s rest : string) :
  Re.strip_prefix p s = Some rest <-> s = (p ++ rest)%string.
Proof.
  revert s. induction p as [|a p IH]; intros s; simpl.
  - split; [now intros [= ->] | now intros ->].
  - destruct s as [|b s]; [split; discriminate |].
    destruct (Ascii.eqb a b) eqn:E.
    + apply Ascii.eqb_eq in E as ->. rewrite IH. split; [now intros -> |].
      now intros [= ->].
    + apply Ascii.eqb_neq in E. split; [discriminate |]. intros [= <- _]. now elim E.
Qed.

Lemma lazy_group_spec (s g : string) :
  Re.lazy_group s = Some g
  <-> exists post,
        s = (g ++ ")" ++ post)%string
        /\ Spec.all_chars
             (fun c => negb (Ascii.eqb c ")") && negb (N_of_ascii c =? 10)%N) g
           = true.
Proof.
  revert g. induction s as [|c s IH]; intros g; simpl.
  - split; [discriminate |]. intros (post & H & _). destruct g; discriminate H.
  - destruct (Ascii.eqb c ")") eqn:Ec.
    + apply Ascii.eqb_eq in Ec as ->. split.
      * intros [= <-]. now exists s.
      * intros (post & H & Hg). destruct g as [|x g]; [reflexivity |].
        simpl in H, Hg. injection H as <- _. discriminate Hg.
    + destruct (N_of_ascii c =? 10)%N eqn:En.
      * split; [discriminate |]. intros (post & H & Hg).
        destruct g as [|x g]; simpl in H, Hg.
        -- injection H as -> _. discriminate Ec.
        -- injection H as <- _. rewrite Ec, En in Hg. discriminate Hg.
      * destruct (Re.lazy_group s) as [g0|] eqn:E; simpl.
        -- split.
           ++ intros [= <-]. destruct (proj1 (IH g0) eq_refl) as (post & -> & Hg).
              exists post. simpl. now rewrite Ec, En, Hg.
           ++ intros (post & H & Hg). destruct g as [|x g]; simpl in H, Hg.
              ** injection H as -> _. discriminate Ec.
              ** injection H as <- H. rewrite Ec, En in Hg. simpl in Hg.
                 f_equal. f_equal. symmetry.
                 assert (Some g0 = Some g) as [= ->]; [| reflexivity].
                 apply IH. now exists post.
        -- split; [discriminate |]. intros (post & H & Hg).
           destruct g as [|x g]; simpl in H, Hg.
           ++ injection H as -> _. discriminate Ec.
           ++ injection H as <- H. rewrite Ec, En in Hg. simpl in Hg.
              assert (None = Some g) as [=]. apply IH. now exists post.
Qed.

Lemma match_cmd_spec (s g : string) :
  Re.match_cmd s = Some g <-> Spec.cmd_head s g.
Proof.
  unfold Re.match_cmd, Spec.cmd_head.
  destruct (Re.strip_prefix "CMD (" s) as [rest|] eqn:E.
  - apply strip_prefix_spec in E as ->. rewrite lazy_group_spec. split.
    + intros (post & -> & Hg). now exists post.
    + intros (post & H & Hg). exists post. split; [| exact Hg].
      now injection H.
  - split; [discriminate |]. intros (post & -> & _). simpl in E. discriminate E.
Qed.

Lemma span_digits_spec (s d r : string) :
  Re.span_digits s = (d, r)
  <-> s = (d ++ r)%string
      /\ Spec.all_chars Re.isdigit d = true
      /\ match r with "" => True | String c _ => Re.isdigit c = false end.
Proof.
  revert d. induction s as [|c s IH]; intros d; simpl.
  - split.
    + intros [= <- <-]. auto.
    + intros (H & _ & _). destruct d; [| discriminate H].
      destruct r; [reflexivity | discriminate H].
  - destruct (Re.isdigit c) eqn:Ec.
    + destruct (Re.span_digits s) as [d0 r0] eqn:E. split.
      * intros [= <- <-]. destruct (proj1 (IH d0) eq_refl) as (-> & Hd & Hr).
        simpl. now rewrite Ec, Hd.
      * intros (H & Hd & Hr). destruct d as [|x d]; simpl in H, Hd.
        -- subst r. rewrite Ec in Hr. discriminate Hr.
        -- injection H as <- H. apply andb_true_iff in Hd as [_ Hd].
           assert ((d0, r0) = (d, r)) as [= -> ->]; [| reflexivity].
           apply IH. auto.
    + split.
      * intros [= <- <-]. simpl. auto.
      * intros (H & Hd & Hr). destruct d as [|x d]; simpl in H, Hd.
        -- now subst r.
        -- injection H as <- _. rewrite Ec in Hd. discriminate Hd.
Qed.

Lemma match_exit_spec (s d : string) :
  Re.match_exit s = Some d <-> Spec.exit_head s d.
Proof.
  unfold Re.match_exit, Spec.exit_head, Spec.number.
  destruct (Re.strip_prefix "EXIT STATUS (" s) as [rest|] eqn:E.
  - apply strip_prefix_spec in E as ->.
    destruct (Re.span_digits rest) as [d0 r] eqn:Es. split.
    + destruct (negb (Py.is_empty d0) && Py.startswith ")" r) eqn:Eb;
        [| discriminate].
      intros [= <-]. apply andb_true_iff in Eb as [Hne Hr].
      apply startswith_spec in Hr as [post ->].
      apply span_digits_spec in Es as (-> & Hd & _).
      exists post. repeat split; trivial.
      intros ->. discriminate Hne.
    + intros (post & H & Hne & Hd).
      assert (Hrest : rest = (d ++ ")" ++ post)%string) by now injection H.
      assert ((d0, r) = (d, (")" ++ post)%string)) as [= -> ->].
      { rewrite <- Es. apply span_digits_spec. repeat split; trivial. }
      destruct d; [contradiction | reflexivity].
  - split; [discriminate |]. intros (post & -> & _). simpl in E. discriminate E.
Qed.

Lemma search_exit_some (e d : string) :
  Re.search_exit e = Some d <-> Spec.exit_text e d.
Proof. apply search_some, match_exit_spec. Qed.

Lemma search_exit_none (e : string) :
  Re.search_exit e = None <-> Spec.no_token Spec.exit_head e.
Proof. apply search_none, match_exit_spec. Qed.

Lemma search_cmd_some (e g : string) :
  Re.search_cmd e = Some g <-> Spec.cmd_text e g.
Proof. apply search_some, match_cmd_spec. Qed.

Lemma search_cmd_none (e : string) :
  Re.search_cmd e = None <-> Spec.no_token Spec.cmd_head e.
Proof. apply search_none, match_cmd_spec. Qed.

(** An exit-status token contains the words [EXIT STATUS]. *)
Lemma exit_text_marker (e d : string) :
  Spec.exit_text e d -> Py.str_in "EXIT STATUS" e = true.
Proof.
  intros (n & (pre & s & -> & _ & post & -> & _) & _).
  apply str_in_spec. exists pre, (" (" ++ d ++ ")" ++ post)%string. reflexivity.
Qed.

(** ** Relevance of a log line *)

Lemma search_cron_tokens_spec (line : string) :
  Re.search_cron_tokens line = true <-> Spec.cron_relevant line.
Proof.
  unfold Re.search_cron_tokens, Spec.cron_relevant.
  now rewrite !orb_true_iff, !str_in_spec, or_assoc.
Qed.

Lemma lower_letter (a b : ascii) :
  In a ["f"; "c"; "r"; "o"; "n"]%char ->
  Ascii.eqb a (Re.lower b) = true <-> b = a \/ b = Spec.upper a.
Proof.
  intros Ha. assert (Hdec : forall x y : ascii, x = y \/ x <> y).
  { intros x y. destruct (ascii_dec x y); auto. }
  rewrite Ascii.eqb_eq.
  destruct Ha as [<- | [<- | [<- | [<- | [<- | []]]]]];
    (split;
     [ intros H;
       destruct b as [[] [] [] [] [] [] [] []]; vm_compute in H;
       first [ discriminate H | left; reflexivity | right; reflexivity ]
     | intros [-> | ->]; reflexivity ]).
Qed.

Lemma match_ignorecase_fcron (s : string) :
  Re.match_ignorecase "fcron" s = true
  <-> exists mid post, s = (mid ++ post)%string /\ Spec.spells "fcron" mid.
Proof.
  split.
  - destruct s as [|c1 [|c2 [|c3 [|c4 [|c5 post]]]]];
      cbn [Re.match_ignorecase];
      try (rewrite ?andb_false_r; discriminate).
    rewrite !andb_true_iff, !lower_letter by (simpl; tauto).
    intros (H1 & H2 & H3 & H4 & H5 & _).
    exists (String c1 (String c2 (String c3 (String c4 (String c5 ""))))), post.
    cbn [Spec.spells append]. tauto.
  - intros (mid & post & -> & H).
    destruct mid as [|c1 [|c2 [|c3 [|c4 [|c5 [|c6 mid]]]]]];
      cbn [Spec.spells] in H; try tauto.
    cbn [Re.match_ignorecase append].
    rewrite !andb_true_iff, !lower_letter by (simpl; tauto). tauto.
Qed.

Lemma search_ignorecase_fcron (line : string) :
  Re.search_ignorecase "fcron" line = true <-> Spec.fcron_relevant line.
Proof.
  unfold Spec.fcron_relevant. induction line as [|c line IH].
  - split.
    + simpl. discriminate.
    + intros ([|x pre] & mid & post & H & Hs).
      * destruct mid; [contradiction Hs | discriminate H].
      * discriminate H.
  - change (Re.search_ignorecase "fcron" (String c line))
      with (Re.match_ignorecase "fcron" (String c line)
            || Re.search_ignorecase "fcron" line).
    rewrite orb_true_iff, match_ignorecase_fcron, IH. split.
    + intros [(mid & post & H & Hs) | (pre & mid & post & H & Hs)].
      * now exists "", mid, post.
      * exists (String c pre), mid, post. simpl. now rewrite H.
    + intros ([|x pre] & mid & post & H & Hs).
      * left. now exists mid, post.
      * right. simpl in H. injection H as _ ->. now exists pre, mid, post.
Qed.

(** ** The shape of [results] *)

Lemma parse_logs_filter (logs : list string) :
  Cron.parse_logs logs = filter Re.search_cron_tokens logs.
Proof.
  unfold Cron.parse_logs.
  rewrite (fold_append_filter Re.search_cron_tokens (fun x => x)).
  simpl. now rewrite map_id.
Qed.

Lemma parse_fcron_logs_filter (logs : list string) :
  Fcron.parse_fcron_logs logs = filter (Re.search_ignorecase "fcron") logs.
Proof.
  unfold Fcron.parse_fcron_logs.
  rewrite (fold_append_filter (Re.search_ignorecase "fcron") (fun x => x)).
  simpl. now rewrite map_id.
Qed.

Lemma failure_test_spec (e : string) :
  Py.str_in "EXIT STATUS" e && negb (Re.search_exit_zero e) = true
  <-> Spec.marks_failure e.
Proof.
  unfold Spec.marks_failure, Re.search_exit_zero.
  rewrite andb_true_iff, negb_true_iff, <- not_true_iff_false, !str_in_spec.
  reflexivity.
Qed.

Lemma cron_results_shape (jobs logs : list string) :
  Cron.main_results jobs logs
  = (match jobs with [] => [Cron.no_crontab_entry] | _ :: _ => [] end)
      ++ map (Spec.job_entry (Cron.parse_logs logs)) jobs
      ++ map Cron.failure_entry
           (filter (fun e => Py.str_in "EXIT STATUS" e
                             && negb (Re.search_exit_zero e))
              (Cron.parse_logs logs)).
Proof.
  unfold Cron.main_results, Cron.failure_step.
  rewrite fold_append_filter.
  rewrite (fold_left_pointwise (Cron.job_step (Cron.parse_logs logs))
             (fun acc j => acc ++ [Spec.job_entry (Cron.parse_logs logs) j])).
  - rewrite fold_append_map, <- app_assoc. now destruct jobs.
  - intros acc j. unfold Cron.job_step, Spec.job_entry.
    now destruct (existsb _ _).
Qed.

Lemma firstn_length_app {A} (l r : list A) : firstn (List.length l) (l ++ r) = l.
Proof. induction l as [|x l IH]; simpl; [reflexivity | now rewrite IH]. Qed.

Lemma per_job_entries_map (jobs logs : list string) :
  Spec.per_job_entries jobs logs
  = map (Spec.job_entry (Cron.parse_logs logs)) jobs.
Proof.
  unfold Spec.per_job_entries. rewrite cron_results_shape.
  destruct jobs as [|j jobs]; [reflexivity |].
  cbn [app]. rewrite <- (length_map (Spec.job_entry (Cron.parse_logs logs))).
  apply firstn_length_app.
Qed.

Lemma job_entry_job (events : list string) (j : string) :
  Report.job (Spec.job_entry events j) = Cron.job_cmd j.
Proof. unfold Spec.job_entry. now destruct (existsb _ _). Qed.

Lemma job_entry_ran (events : list string) (j : string) :
  (exists e, In e events /\ Spec.Substring (Cron.job_cmd j) e) ->
  Report.status (Spec.job_entry events j) = Report.success.
Proof.
  intros (e & He & Hs). unfold Spec.job_entry.
  replace (existsb _ events) with true; [reflexivity |].
  symmetry. apply existsb_exists. exists e. now rewrite str_in_spec.
Qed.

Lemma job_entry_not_run (events : list string) (j : string) :
  ~ (exists e, In e events /\ Spec.Substring (Cron.job_cmd j) e) ->
  Report.status (Spec.job_entry events j) = Report.missing.
Proof.
  intros H. unfold Spec.job_entry.
  destruct (existsb _ events) eqn:E; [| reflexivity].
  apply existsb_exists in E as (e & He & Hs). elim H.
  exists e. now rewrite <- str_in_spec.
Qed.

Lemma fcron_results_shape (logs : list string) :
  Fcron.main_results logs
  = match Fcron.parse_fcron_logs logs with
    | [] => [Fcron.no_activity_entry]
    | events => map Fcron.event_entry events
    end.
Proof.
  unfold Fcron.main_results.
  destruct (Fcron.parse_fcron_logs logs) as [|e events] eqn:E; [reflexivity |].
  cbn [Py.truthy negb]. now rewrite fold_append_map.
Qed.

Lemma cron_fields_map (results : list Report.entry) :
  Cron.embed_fields results = map (Spec.field_of Cron.status_icon) results.
Proof. unfold Cron.embed_fields. now rewrite fold_append_map. Qed.

Lemma fcron_fields_map (results : list Report.entry) :
  Fcron.embed_fields results = map (Spec.field_of Fcron.status_icon) results.
Proof. unfold Fcron.embed_fields. now rewrite fold_append_map. Qed.

(** ** The colour of the embed *)

Lemma has_status_existsb (s : Report.Status) (results : list Report.entry) :
  existsb (fun r => Report.Status_eqb (Report.status r) s) results = true
  <-> Spec.has_status s results.
Proof.
  unfold Spec.has_status. rewrite existsb_exists.
  split; intros (r & Hr & H); exists r; split; trivial;
    destruct (Report.status r), s; (reflexivity || discriminate).
Qed.

Lemma embed_color_by_priority (results : list Report.entry) :
  Spec.by_priority
    (Spec.overall_severity (Cron.send_discord_report results)) results.
Proof.
  unfold Spec.by_priority, Spec.overall_severity, Cron.send_discord_report,
    Cron.embed_color.
  cbn [Report.color].
  destruct (existsb (fun r => Report.Status_eqb (Report.status r) Report.failed)
              results) eqn:Ef.
  - apply has_status_existsb in Ef.
    change (if (Report.red =? Report.red)%Z then _ else _)
      with (Some Report.failed).
    intuition congruence.
  - assert (Hf : ~ Spec.has_status Report.failed results).
    { rewrite <- has_status_existsb. congruence. }
    destruct (existsb
                (fun r => Report.Status_eqb (Report.status r) Report.missing)
                results) eqn:Em.
    + apply has_status_existsb in Em.
      change (if (Report.orange =? Report.red)%Z then _ else _)
        with (Some Report.missing).
      intuition congruence.
    + assert (Hm : ~ Spec.has_status Report.missing results).
      { rewrite <- has_status_existsb. congruence. }
      change (if (Report.green =? Report.red)%Z then _ else _)
        with (Some Report.success).
      intuition congruence.
Qed.

Lemma existsb_Permutation {A} (p : A -> bool) (l l' : list A) :
  Permutation l l' -> existsb p l = existsb p l'.
Proof.
  intros H. apply eq_true_iff_eq. rewrite !existsb_exists.
  split; intros (x & Hx & Hp); exists x; split; trivial.
  - now apply (Permutation_in _ H).
  - now apply (Permutation_in _ (Permutation_sym H)).
Qed.

Lemma fcron_report_color (results : list Report.entry) :
  Report.color (Fcron.send_discord_report results)
  = Report.color (Cron.send_discord_report results).
Proof. reflexivity. Qed.

(** C4.  The overall severity of a report, in either script, is Failed
    exactly when some entry is Failed, else Missing exactly when some entry
    is Missing, else Success; the empty list gives Success, and reordering
    the entries changes nothing. *)
Theorem overall_severity_priority (results : list Report.entry) :
  Spec.by_priority
    (Spec.overall_severity (Cron.send_discord_report results)) results
  /\ Spec.by_priority
       (Spec.overall_severity (Fcron.send_discord_report results)) results
  /\ Spec.overall_severity (Cron.send_discord_report []) = Some Report.success
  /\ Spec.overall_severity (Fcron.send_discord_report []) = Some Report.success
  /\ forall results',
       Permutation results results' ->
       Spec.overall_severity (Cron.send_discord_report results')
       = Spec.overall_severity (Cron.send_discord_report results)
       /\ Spec.overall_severity (Fcron.send_discord_report results')
          = Spec.overall_severity (Fcron.send_discord_report results).
Proof.
  assert (HP : forall results',
             Permutation results results' ->
             Cron.embed_color results' = Cron.embed_color results).
  { intros results' H. unfold Cron.embed_color.
    now rewrite !(existsb_Permutation _ _ _ H). }
  split; [apply embed_color_by_priority |].
  split; [apply (embed_color_by_priority results) |].
  split; [reflexivity |]. split; [reflexivity |].
  intros results' H. split.
  - unfold Spec.overall_severity; cbn [Report.color Cron.send_discord_report];
      now rewrite (HP _ H).
  - unfold Spec.overall_severity;
      cbn [Report.color Fcron.send_discord_report].
    change (Fcron.embed_color results') with (Cron.embed_color results').
    change (Fcron.embed_color results) with (Cron.embed_color results).
    now rewrite (HP _ H).
Qed.

(** ** Event extraction *)

(** C8.  Both extractors return exactly the lines that satisfy their
    relevance test, in the order of the input and unchanged; nothing in gives
    nothing out. *)
Theorem extractor_selects (logs : list string) :
  Spec.Selected Spec.cron_relevant logs (Cron.parse_logs logs)
  /\ Spec.Selected Spec.fcron_relevant logs (Fcron.parse_fcron_logs logs)
  /\ Cron.parse_logs [] = []
  /\ Fcron.parse_fcron_logs [] = [].
Proof.
  rewrite parse_logs_filter, parse_fcron_logs_filter. repeat split.
  - apply filter_Selected, search_cron_tokens_spec.
  - apply filter_Selected, search_ignorecase_fcron.
Qed.

(** ** The command label *)

Lemma skipn_short {A} (n : nat) (l : list A) :
  List.length l <= n -> skipn n l = [].
Proof.
  revert l. induction n as [|n IH]; intros [|x l]; simpl; trivial; intros H.
  - lia.
  - apply IH. lia.
Qed.

Lemma job_cmd_short (job : string) (toks : list string) :
  Spec.Tokens job toks -> List.length toks < 6 -> Cron.job_cmd job = "".
Proof.
  intros H L. apply Tokens_split in H. unfold Cron.job_cmd.
  rewrite H, skipn_short; [reflexivity | lia].
Qed.

(** ** Reconciliation, cron flavour *)

Lemma Forall2_map_right {A B} (R : A -> B -> Prop) (f : A -> B) (l : list A) :
  (forall x, R x (f x)) -> Forall2 R l (map f l).
Proof. intros H. induction l; simpl; constructor; auto. Qed.

Lemma no_events_no_failures (jobs logs : list string) :
  Cron.parse_logs logs = [] ->
  Cron.main_results jobs logs
  = (match jobs with [] => [Cron.no_crontab_entry] | _ :: _ => [] end)
      ++ Spec.per_job_entries jobs logs.
Proof.
  intros H. rewrite per_job_entries_map, cron_results_shape, H. simpl.
  now rewrite app_nil_r.
Qed.

(** C10.  A declared line with fewer than six tokens has the empty label,
    which occurs in every line: its entry is Success as soon as one event was
    extracted, and Missing only when none was. *)
Theorem short_line_entry (jobs logs : list string) :
  Forall2
    (fun j r =>
       forall toks,
         Spec.Tokens j toks -> List.length toks < 6 ->
         Report.job r = ""
         /\ (forall line, Spec.Substring (Report.job r) line)
         /\ (Cron.parse_logs logs <> [] -> Report.status r = Report.success)
         /\ (Cron.parse_logs logs = [] -> Report.status r = Report.missing))
    jobs (Spec.per_job_entries jobs logs).
Proof.
  rewrite per_job_entries_map. apply Forall2_map_right.
  intros j toks HT HL. pose proof (job_cmd_short _ _ HT HL) as Hc.
  rewrite job_entry_job, Hc. repeat split.
  - intros line. now exists "", line.
  - intros He. apply job_entry_ran.
    destruct (Cron.parse_logs logs) as [|e events]; [contradiction |].
    exists e. split; [now left |]. rewrite Hc. now exists "", e.
  - intros ->. apply job_entry_not_run. intros (e & [] & _).
Qed.

Lemma failure_entry_spec (e : string) :
  Report.job (Cron.failure_entry e) = "Failure detected"
  /\ Report.status (Cron.failure_entry e) = Report.failed
  /\ Spec.Substring e (Report.message (Cron.failure_entry e)).
Proof.
  repeat split. exists ("```" ++ Py.nl)%string, (Py.nl ++ "```")%string.
  reflexivity.
Qed.

Lemma cron_results_selected (jobs logs : list string) :
  exists failing,
    Spec.Selected Spec.marks_failure (Cron.parse_logs logs) failing
    /\ Cron.main_results jobs logs
       = (match jobs with [] => [Cron.no_crontab_entry] | _ :: _ => [] end)
           ++ map (Spec.job_entry (Cron.parse_logs logs)) jobs
           ++ map Cron.failure_entry failing.
Proof.
  eexists. split; [| apply cron_results_shape].
  apply filter_Selected. intros e. apply failure_test_spec.
Qed.

(** ** No declared job *)

Lemma get_crontab_unavailable (h : Cron.host) :
  Cron.which_crontab h = false -> Cron.get_crontab h = [].
Proof. unfold Cron.get_crontab. now intros ->. Qed.

(** ** Reconciliation, fcron flavour *)

Lemma event_entry_status (e : string) :
  Report.status (Fcron.event_entry e) <> Report.missing.
Proof.
  unfold Fcron.event_entry.
  destruct (Py.str_in "EXIT STATUS" e); [| discriminate].
  destruct (Re.search_exit e) as [g|]; [| discriminate].
  destruct (negb (g =? "0")%string); discriminate.
Qed.

(** C6.  With no extracted event the report is the one entry
    "No fcron activity", Missing; with events it has one entry per event and
    none of them is Missing, so the synthetic entry is not among them. *)
Theorem no_activity_report (logs : list string) :
  (Fcron.parse_fcron_logs logs = [] ->
   Fcron.main_results logs
   = [Report.mk_entry "No fcron activity" Report.missing
        "No fcron jobs ran in the last interval."])
  /\ (Fcron.parse_fcron_logs logs <> [] ->
      List.length (Fcron.main_results logs)
      = List.length (Fcron.parse_fcron_logs logs)
      /\ (forall r, In r (Fcron.main_results logs) ->
                    Report.status r <> Report.missing)
      /\ ~ In Fcron.no_activity_entry (Fcron.main_results logs)).
Proof.
  rewrite fcron_results_shape. split.
  - now intros ->.
  - intros H. destruct (Fcron.parse_fcron_logs logs) as [|e events];
      [contradiction |].
    assert (Hall : forall r, In r (map Fcron.event_entry (e :: events)) ->
                             Report.status r <> Report.missing).
    { intros r Hr. apply in_map_iff in Hr as (x & <- & _).
      apply event_entry_status. }
    split; [apply length_map |]. split; [exact Hall |].
    intros Hin. now apply Hall in Hin.
Qed.

Lemma event_entry_labelled (e : string) :
  Spec.labelled e (Fcron.event_entry e).
Proof.
  assert (H : Report.job (Fcron.event_entry e)
              = match Re.search_cmd e with
                | Some g => g
                | None => "Unknown job"
                end).
  { unfold Fcron.event_entry.
    destruct (Py.str_in "EXIT STATUS" e); [| reflexivity].
    destruct (Re.search_exit e) as [g|]; [| reflexivity].
    now destruct (negb (g =? "0")%string). }
  split.
  - intros g Hg. apply search_cmd_some in Hg. now rewrite H, Hg.
  - intros Hn. apply search_cmd_none in Hn. now rewrite H, Hn.
Qed.

Lemma event_entry_exit_text (e d : string) :
  Spec.exit_text e d ->
  Fcron.event_entry e
  = let job_name :=
      match Re.search_cmd e with Some g => g | None => "Unknown job" end in
    if negb (d =? "0")%string then Fcron.failed_entry job_name e
    else Fcron.ran_entry job_name.
Proof.
  intros H. unfold Fcron.event_entry.
  rewrite (exit_text_marker _ _ H).
  apply search_exit_some in H. now rewrite H.
Qed.

Lemma event_entry_no_exit (e : string) :
  Spec.no_token Spec.exit_head e ->
  Fcron.event_entry e
  = Fcron.ran_entry
      match Re.search_cmd e with Some g => g | None => "Unknown job" end.
Proof.
  intros H. unfold Fcron.event_entry.
  apply search_exit_none in H. rewrite H.
  now destruct (Py.str_in "EXIT STATUS" e).
Qed.

Lemma event_entry_classified (e : string) :
  Spec.classified_by_text e (Fcron.event_entry e).
Proof.
  split; [| split].
  - intros d Hd Hne. rewrite (event_entry_exit_text _ _ Hd).
    apply String.eqb_neq in Hne. cbv zeta. rewrite Hne.
    repeat split.
    exists ("```" ++ Py.nl)%string, (Py.nl ++ "```")%string. reflexivity.
  - intros Hd. rewrite (event_entry_exit_text _ _ Hd). split; reflexivity.
  - intros Hn. rewrite (event_entry_no_exit _ Hn). split; reflexivity.
Qed.

(** C3, as the code has it.  With events extracted, the report has one entry
    per event, in order.  Its label is the text enclosed by the event's first
    [CMD (...)] token, or "Unknown job" without one.  It is Failed, with the
    line in its message, when the text of the event's first
    [EXIT STATUS (n)] token is not the single digit [0]; it is Success with
    "Ran successfully." when that text is [0], and when there is no such
    token. *)
Theorem event_entries_by_exit_text (logs : list string) :
  Fcron.parse_fcron_logs logs <> [] ->
  Forall2 (fun e r => Spec.labelled e r /\ Spec.classified_by_text e r)
    (Fcron.parse_fcron_logs logs) (Fcron.main_results logs).
Proof.
  intros H. rewrite fcron_results_shape.
  destruct (Fcron.parse_fcron_logs logs) as [|e events]; [contradiction |].
  apply Forall2_map_right. intros x.
  split; [apply event_entry_labelled | apply event_entry_classified].
Qed.

(** ** The order of the entries *)


(** ** The claims at concrete inputs *)

(** C3 as first stated fails: a line whose exit status is written [00] has
    exit code zero and is reported Failed. *)
Lemma double_zero_reported_failed :
  Fcron.main_results ["fcron[812]: Job backup completed EXIT STATUS (00)"]
  = [Report.mk_entry "Unknown job" Report.failed
       (Spec.fenced "fcron[812]: Job backup completed EXIT STATUS (00)")]
  /\ Spec.exit_code "fcron[812]: Job backup completed EXIT STATUS (00)" 0%N
  /\ ~ Forall2 (fun e r => Spec.labelled e r /\ Spec.classified_by_code e r)
         (Fcron.parse_fcron_logs
            ["fcron[812]: Job backup completed EXIT STATUS (00)"])
         (Fcron.main_results
            ["fcron[812]: Job backup completed EXIT STATUS (00)"]).
Proof.
  assert (Hcode :
            Spec.exit_code
              "fcron[812]: Job backup completed EXIT STATUS (00)" 0%N).
  { exists "00". split; [| reflexivity]. apply search_exit_some. reflexivity. }
  split; [reflexivity |]. split; [exact Hcode |].
  intros H.
  change (Fcron.parse_fcron_logs
            ["fcron[812]: Job backup completed EXIT STATUS (00)"])
    with ["fcron[812]: Job backup completed EXIT STATUS (00)"] in H.
  change (Fcron.main_results
            ["fcron[812]: Job backup completed EXIT STATUS (00)"])
    with [Report.mk_entry "Unknown job" Report.failed
            (Spec.fenced "fcron[812]: Job backup completed EXIT STATUS (00)")]
    in H.
  inversion H as [| e r es rs [_ (_ & Hzero & _)] _]; subst.
  destruct (Hzero Hcode) as [Hs _]. discriminate Hs.
Qed.

Lemma event_entries_by_exit_text_witness :
  Fcron.parse_fcron_logs
    ["fcron[812]: Job backup started CMD (/usr/bin/backup.sh)";
     "kernel: something else";
     "FCRON[813]: Job rotate completed EXIT STATUS (7)"] <> []
  /\ Forall2 (fun e r => Spec.labelled e r /\ Spec.classified_by_text e r)
       (Fcron.parse_fcron_logs
          ["fcron[812]: Job backup started CMD (/usr/bin/backup.sh)";
           "kernel: something else";
           "FCRON[813]: Job rotate completed EXIT STATUS (7)"])
       (Fcron.main_results
          ["fcron[812]: Job backup started CMD (/usr/bin/backup.sh)";
           "kernel: something else";
           "FCRON[813]: Job rotate completed EXIT STATUS (7)"]).
Proof.
  split.
  - vm_compute. discriminate.
  - apply event_entries_by_exit_text. vm_compute. discriminate.
Defined.

Lemma overall_severity_priority_witness :
  Permutation
    [Report.mk_entry "/usr/bin/backup.sh" Report.success "ok";
     Report.mk_entry "Failure detected" Report.failed "line"]
    [Report.mk_entry "Failure detected" Report.failed "line";
     Report.mk_entry "/usr/bin/backup.sh" Report.success "ok"]
  /\ Spec.overall_severity
       (Cron.send_discord_report
          [Report.mk_entry "Failure detected" Report.failed "line";
           Report.mk_entry "/usr/bin/backup.sh" Report.success "ok"])
     = Spec.overall_severity
         (Cron.send_discord_report
            [Report.mk_entry "/usr/bin/backup.sh" Report.success "ok";
             Report.mk_entry "Failure detected" Report.failed "line"]).
Proof.
  split.
  - apply perm_swap.
  - apply (proj2 (proj2 (proj2 (proj2 (overall_severity_priority _))))).
    apply perm_swap.
Defined.

Lemma short_line_entry_witness :
  Spec.Tokens "@daily /usr/bin/rotate" ["@daily"; "/usr/bin/rotate"]
  /\ List.length ["@daily"; "/usr/bin/rotate"] < 6
  /\ Cron.parse_logs ["CRON[9]: (root) CMD (/usr/bin/other)"] <> []
  /\ Forall (fun r => Report.job r = "" /\ Report.status r = Report.success)
       (Spec.per_job_entries ["@daily /usr/bin/rotate"]
          ["CRON[9]: (root) CMD (/usr/bin/other)"]).
Proof.
  assert (HT : Spec.Tokens "@daily /usr/bin/rotate"
                 ["@daily"; "/usr/bin/rotate"]).
  { exact (split_Tokens "@daily /usr/bin/rotate"). }
  assert (HL : List.length ["@daily"; "/usr/bin/rotate"] < 6).
  { simpl. lia. }
  assert (HE : Cron.parse_logs ["CRON[9]: (root) CMD (/usr/bin/other)"] <> []).
  { vm_compute. discriminate. }
  repeat (split; [assumption |]).
  pose proof (short_line_entry ["@daily /usr/bin/rotate"]
                ["CRON[9]: (root) CMD (/usr/bin/other)"]) as H.
  remember (Spec.per_job_entries ["@daily /usr/bin/rotate"]
              ["CRON[9]: (root) CMD (/usr/bin/other)"]) as rs eqn:E.
  clear E. inversion H as [| j r js rs' Hr Hrest Ej Er]. subst.
  inversion Hrest. subst. constructor; [| constructor].
  destruct (Hr _ HT HL) as (Hjob & _ & Hran & _). split; [exact Hjob |].
  apply Hran, HE.
Defined.

Lemma no_activity_report_witness :
  Fcron.parse_fcron_logs ["kernel: nothing for us"] = []
  /\ Fcron.parse_fcron_logs ["Fcron[3]: Job sync started"] <> []
  /\ Fcron.main_results ["kernel: nothing for us"]
     = [Report.mk_entry "No fcron activity" Report.missing
          "No fcron jobs ran in the last interval."]
  /\ ~ In Fcron.no_activity_entry
         (Fcron.main_results ["Fcron[3]: Job sync started"]).
Proof.
  split; [reflexivity |]. split; [vm_compute; discriminate |]. split.
  - apply (proj1 (no_activity_report ["kernel: nothing for us"])). reflexivity.
  - apply (proj2 (no_activity_report ["Fcron[3]: Job sync started"])).
    vm_compute. discriminate.
Defined.


(** ** Sample runs *)

Example backup_job_ran :
  Cron.main_results ["*/5 * * * * /usr/bin/backup.sh"]
    ["CRON[123]: (root) CMD (/usr/bin/backup.sh)"]
  = [Report.mk_entry "/usr/bin/backup.sh" Report.success
       "Ran successfully in last 10 minutes."].
Proof. reflexivity. Qed.

Example nothing_declared_nothing_logged :
  Cron.main (Cron.mk_host true Cron.CalledProcessError) []
  = Report.mk_embed Report.orange
      [Spec.field_of Cron.status_icon Cron.no_crontab_entry].
Proof. reflexivity. Qed.

Example failing_line_is_added :
  Cron.main_results ["* * * * * job1"]
    ["cron[4]: (root) CMD (job1) then EXIT STATUS (1)"]
  = [Report.mk_entry "job1" Report.success
       "Ran successfully in last 10 minutes.";
     Report.mk_entry "Failure detected" Report.failed
       (Spec.fenced "cron[4]: (root) CMD (job1) then EXIT STATUS (1)")]
  /\ Spec.overall_severity
       (Cron.send_discord_report
          (Cron.main_results ["* * * * * job1"]
             ["cron[4]: (root) CMD (job1) then EXIT STATUS (1)"]))
     = Some Report.failed.
Proof. split; reflexivity. Qed.

Example comment_lines_are_not_jobs :
  Cron.get_crontab
    (Cron.mk_host true
       (Cron.Output
          ("# backups" ++ Py.nl ++ "  */5 * * * * /usr/bin/backup.sh  "
             ++ Py.nl ++ Py.nl)%string))
  = ["*/5 * * * * /usr/bin/backup.sh"].
Proof. reflexivity. Qed.

Example fcron_exit_statuses :
  map Report.status
    (Fcron.main_results
       ["fcron[1]: Job a CMD (a.sh) EXIT STATUS (0)";
        "fcron[2]: Job b CMD (b.sh) EXIT STATUS (7)";
        "FCRON[3]: Job c started"])
  = [Report.success; Report.failed; Report.success]
  /\ map Report.job
       (Fcron.main_results
          ["fcron[1]: Job a CMD (a.sh) EXIT STATUS (0)";
           "fcron[2]: Job b CMD (b.sh) EXIT STATUS (7)";
           "FCRON[3]: Job c started"])
     = ["a.sh"; "b.sh"; "Unknown job"].
Proof. split; reflexivity. Qed.

(** * Further properties of the two scripts *)

(** ** Lines of a text *)

Lemma splitlines_from_no_linebreak (n : nat) :
  forall s cur line,
    String.length s <= n -> Spec.no_linebreak cur ->
    In line (Py.splitlines_from cur s) -> Spec.no_linebreak line.
Proof.
  unfold Spec.no_linebreak.
  induction n as [|n IH]; intros s cur line Hn Hcur Hin.
  - destruct s; [| simpl in Hn; lia]. simpl in Hin.
    destruct (Py.is_empty cur); [contradiction |].
    destruct Hin as [<- | []]. exact Hcur.
  - destruct s as [|c s]; simpl in Hin.
    + destruct (Py.is_empty cur); [contradiction |].
      destruct Hin as [<- | []]. exact Hcur.
    + simpl in Hn. destruct (Py.is_linebreak c) eqn:Ec.
      * destruct s as [|d s].
        -- destruct Hin as [<- | []]. exact Hcur.
        -- simpl in Hn.
           destruct ((N_of_ascii c =? 13)%N && (N_of_ascii d =? 10)%N);
             destruct Hin as [<- | Hin]; trivial.
           ++ apply (IH s "" line); [lia | reflexivity | exact Hin].
           ++ apply (IH (String d s) "" line); [simpl; lia | reflexivity |].
              exact Hin.
      * apply (IH s (cur ++ String c "")%string line); [lia | | exact Hin].
        rewrite all_chars_append, Hcur. simpl. now rewrite Ec.
Qed.

Lemma splitlines_no_linebreak (s line : string) :
  In line (Py.splitlines s) -> Spec.no_linebreak line.
Proof.
  apply (splitlines_from_no_linebreak (String.length s)); [lia | reflexivity].
Qed.

Lemma join_empty_cons (x : string) (l : list string) :
  Py.join "" (x :: l) = (x ++ Py.join "" l)%string.
Proof. destruct l; simpl; [now rewrite append_nil_r | reflexivity]. Qed.

(** Reading the lines of a text loses nothing. *)
Lemma readlines_from_join (s cur : string) :
  Py.join "" (Py.readlines_from cur s) = (cur ++ s)%string.
Proof.
  revert cur. induction s as [|c s IH]; intros cur; simpl.
  - destruct cur; simpl; [reflexivity | now rewrite append_nil_r].
  - destruct (N_of_ascii c =? 10)%N.
    + rewrite join_empty_cons, IH, append_assoc. reflexivity.
    + rewrite IH, append_assoc. reflexivity.
Qed.

Lemma readlines_from_file_line (s cur line : string) :
  Spec.all_chars (fun c => negb (N_of_ascii c =? 10)%N) cur = true ->
  In line (Py.readlines_from cur s) -> Spec.file_line line.
Proof.
  revert cur. induction s as [|c s IH]; intros cur Hcur Hin; simpl in Hin.
  - destruct cur as [|x cur]; [contradiction |].
    destruct Hin as [<- | []]. exists (String x cur).
    split; [exact Hcur |]. right. split; [reflexivity | discriminate].
  - destruct (N_of_ascii c =? 10)%N eqn:Ec.
    + destruct Hin as [<- | Hin].
      * exists cur. split; [exact Hcur |]. left. f_equal.
        apply N.eqb_eq in Ec. unfold Py.nl. f_equal.
        rewrite <- (ascii_N_embedding c), Ec. reflexivity.
      * now apply (IH "").
    + apply (IH (cur ++ String c "")%string); [| exact Hin].
      rewrite all_chars_append, Hcur. simpl. now rewrite Ec.
Qed.

(** ** The last elements of a list *)

Lemma last_slice_length {A} (n : nat) (l : list A) :
  List.length (Py.last_slice n l) <= n.
Proof. unfold Py.last_slice. rewrite length_skipn. lia. Qed.

Lemma last_slice_suffix {A} (n : nat) (l : list A) :
  exists pre, l = pre ++ Py.last_slice n l.
Proof.
  exists (firstn (List.length l - n) l). unfold Py.last_slice.
  now rewrite firstn_skipn.
Qed.

Lemma last_slice_all {A} (n : nat) (l : list A) :
  List.length l <= n -> Py.last_slice n l = l.
Proof.
  intros H. unfold Py.last_slice.
  replace (List.length l - n) with 0 by lia. reflexivity.
Qed.

Lemma join_empty_app (a b : list string) :
  Py.join "" (a ++ b) = (Py.join "" a ++ Py.join "" b)%string.
Proof.
  induction a as [|x a IH]; [reflexivity |].
  change ((x :: a) ++ b) with (x :: (a ++ b)).
  now rewrite !join_empty_cons, IH, append_assoc.
Qed.

(** ** [str.strip] *)

Lemma lstrip_head (s : string) (c : ascii) (rest : string) :
  Py.lstrip s = String c rest -> Py.isspace c = false.
Proof.
  induction s as [|x s IH]; simpl; [discriminate |].
  destruct (Py.isspace x) eqn:E; [exact IH |]. now intros [= <- _].
Qed.

Lemma lstrip_split (s : string) :
  exists w, Spec.blank w /\ s = (w ++ Py.lstrip s)%string.
Proof.
  unfold Spec.blank. induction s as [|x s (w & Hw & IH)]; simpl.
  - now exists "".
  - destruct (Py.isspace x) eqn:E.
    + exists (String x w). simpl. rewrite E, Hw. split; [reflexivity |].
      now rewrite <- IH.
    + now exists "".
Qed.

Lemma rstrip_split (s : string) :
  exists w, Spec.blank w /\ s = (Py.rstrip s ++ w)%string.
Proof.
  unfold Spec.blank. induction s as [|x s (w & Hw & IH)]; simpl.
  - now exists "".
  - destruct (Py.rstrip s) as [|y r] eqn:Er; simpl.
    + destruct (Py.isspace x) eqn:E.
      * exists (String x w). simpl. rewrite E, Hw. split; [reflexivity |].
        simpl in IH. now rewrite <- IH.
      * exists w. split; [exact Hw |]. simpl in IH. now rewrite <- IH.
    + exists w. split; [exact Hw |]. now rewrite IH.
Qed.

Lemma rstrip_last (s pre : string) (c : ascii) :
  Py.rstrip s = (pre ++ String c "")%string -> Py.isspace c = false.
Proof.
  revert pre. induction s as [|x s IH]; intros pre; simpl.
  - destruct pre; discriminate.
  - destruct (Py.rstrip s) as [|y r] eqn:Er; simpl.
    + destruct (Py.isspace x) eqn:E.
      * destruct pre; discriminate.
      * destruct pre as [|z [|z' pre]]; simpl; try discriminate.
        now intros [= <-].
    + destruct pre as [|z pre]; simpl; [discriminate |].
      intros [= _ H]. now apply (IH pre).
Qed.

Lemma rstrip_head (s : string) (c : ascii) (rest : string) :
  Py.rstrip s = String c rest -> exists rest', s = String c rest'.
Proof.
  destruct s as [|x s]; simpl; [discriminate |].
  destruct (Py.is_empty (Py.rstrip s) && Py.isspace x); [discriminate |].
  intros [= -> _]. now exists s.
Qed.

Lemma strip_trimmed (s : string) : Spec.trimmed (Py.strip s).
Proof.
  unfold Py.strip. split.
  - intros c rest H. apply rstrip_head in H as [rest' H].
    now apply lstrip_head in H.
  - intros pre c H. now apply rstrip_last in H.
Qed.

Lemma strip_all_chars (p : ascii -> bool) (s : string) :
  Spec.all_chars p s = true -> Spec.all_chars p (Py.strip s) = true.
Proof.
  intros H. unfold Py.strip.
  destruct (lstrip_split s) as (w & _ & Hs).
  destruct (rstrip_split (Py.lstrip s)) as (w' & _ & Hl).
  rewrite Hs, Hl, !all_chars_append in H.
  apply andb_true_iff in H as [_ H]. now apply andb_true_iff in H as [H _].
Qed.

(** Stripping a trimmed text changes nothing. *)
Lemma trimmed_strip (s : string) : Spec.trimmed s -> Py.strip s = s.
Proof.
  intros [Hh Hl]. unfold Py.strip.
  assert (Hls : Py.lstrip s = s).
  { destruct s as [|c s]; [reflexivity |]. simpl.
    now rewrite (Hh c s eq_refl). }
  rewrite Hls. clear Hh Hls. induction s as [|c s IH]; [reflexivity |].
  simpl. destruct s as [|d s].
  - simpl. now rewrite (Hl "" c eq_refl).
  - rewrite IH; [reflexivity |].
    intros pre x H. apply (Hl (String c pre) x). simpl. now rewrite H.
Qed.

(** ** The declared jobs *)

Lemma get_crontab_output (h : Cron.host) (output : string) :
  Cron.which_crontab h = true -> Cron.crontab_l h = Cron.Output output ->
  Cron.get_crontab h
  = map Py.strip
      (filter (fun line => negb (Py.is_empty (Py.strip line))
                           && negb (Py.startswith "#" line))
         (Py.splitlines output)).
Proof.
  intros Hw Hc. unfold Cron.get_crontab. rewrite Hw, Hc. cbn [negb].
  now rewrite fold_append_filter.
Qed.

Lemma job_line_test (line : string) :
  negb (Py.is_empty (Py.strip line)) && negb (Py.startswith "#" line) = true
  <-> Py.strip line <> "" /\ ~ (exists rest, line = ("#" ++ rest)%string).
Proof.
  rewrite andb_true_iff, !negb_true_iff, <- (startswith_spec "#" line).
  rewrite <- (not_true_iff_false (Py.startswith "#" line)).
  destruct (Py.strip line) as [|c t]; simpl.
  - split; [intros [H _]; discriminate H | intros [H _]; now elim H].
  - split; intros [_ H]; split; trivial; discriminate.
Qed.

(** X1.  Every job [get_crontab] returns is a non-empty text without
    surrounding whitespace and without a line break; stripping it again
    changes nothing. *)
Theorem crontab_jobs_clean (h : Cron.host) (job : string) :
  In job (Cron.get_crontab h) ->
  job <> "" /\ Spec.trimmed job /\ Spec.no_linebreak job /\ Py.strip job = job.
Proof.
  intros Hin. assert (H : exists output line,
                         In line (Py.splitlines output)
                         /\ Py.strip line <> "" /\ job = Py.strip line).
  { destruct (Cron.which_crontab h) eqn:Hw.
    - destruct (Cron.crontab_l h) as [output|] eqn:Hc.
      + rewrite (get_crontab_output _ _ Hw Hc) in Hin.
        apply in_map_iff in Hin as (line & <- & Hl).
        apply filter_In in Hl as [Hl Ht]. apply job_line_test in Ht as [Ht _].
        now exists output, line.
      + unfold Cron.get_crontab in Hin. rewrite Hw, Hc in Hin. contradiction.
    - unfold Cron.get_crontab in Hin. rewrite Hw in Hin. contradiction. }
  destruct H as (output & line & Hl & Hne & ->).
  split; [exact Hne |]. split; [apply strip_trimmed |]. split.
  - apply strip_all_chars. now apply (splitlines_no_linebreak output).
  - apply trimmed_strip, strip_trimmed.
Qed.

(** X2.  When [crontab -l] answers, the jobs are the stripped lines of its
    output, in order, for exactly the lines that are not blank and do not
    have [#] as their very first character; a [#] after leading whitespace
    does not make a line a comment. *)
Theorem crontab_jobs_from_lines (h : Cron.host) (output : string) :
  Cron.which_crontab h = true -> Cron.crontab_l h = Cron.Output output ->
  exists kept,
    Spec.Selected
      (fun line => Py.strip line <> ""
                   /\ ~ (exists rest, line = ("#" ++ rest)%string))
      (Py.splitlines output) kept
    /\ Cron.get_crontab h = map Py.strip kept
    /\ forall line,
         In line (Py.splitlines output) -> Py.strip line <> "" ->
         ~ (exists rest, line = ("#" ++ rest)%string) ->
         In (Py.strip line) (Cron.get_crontab h).
Proof.
  intros Hw Hc. rewrite (get_crontab_output _ _ Hw Hc).
  eexists. split; [apply filter_Selected, job_line_test |].
  split; [reflexivity |].
  intros line Hl Hne Hc'. apply in_map, filter_In. split; [exact Hl |].
  now apply job_line_test.
Qed.

(** ** The tokens of the label *)

Lemma Tokens_words (s : string) (toks : list string) :
  Spec.Tokens s toks -> Forall Spec.word toks.
Proof. induction 1; constructor; assumption. Qed.

Lemma join_words_Tokens (ws : list string) :
  Forall Spec.word ws -> Spec.Tokens (Py.join " " ws) ws.
Proof.
  induction 1 as [|w ws Hw _ IH].
  - now apply Spec.Tokens_blank.
  - destruct ws as [|w2 ws].
    + change (Py.join " " [w]) with w.
      assert (H : Spec.Tokens ("" ++ w ++ "") [w]).
      { apply Spec.Tokens_word; trivial; try reflexivity;
          now apply Spec.Tokens_blank. }
      simpl in H. now rewrite append_nil_r in H.
    + change (Py.join " " (w :: w2 :: ws))
        with ("" ++ w ++ String " " (Py.join " " (w2 :: ws)))%string.
      apply Spec.Tokens_word; trivial; try reflexivity.
      now apply Tokens_space.
Qed.

Lemma Forall_skipn_keep {A} (P : A -> Prop) (n : nat) (l : list A) :
  Forall P l -> Forall P (skipn n l).
Proof.
  revert l. induction n as [|n IH]; intros l H; [exact H |].
  destruct H; simpl; [constructor | now apply IH].
Qed.

Lemma join_words_empty (ws : list string) :
  Forall Spec.word ws -> Py.join " " ws = "" -> ws = [].
Proof.
  intros H E. destruct H as [|w ws [Hne _] _]; [reflexivity |].
  exfalso. destruct w; [contradiction |]. destruct ws; discriminate E.
Qed.

(** ** Probing for the scheduler *)

Lemma first_active_some (s : Os.system) (l : list string) (svc : string) :
  Cron.first_active s l = Os.Returns (Some svc)
  <-> exists before after,
        l = before ++ svc :: after
        /\ Forall (Spec.inactive s) before /\ Spec.active s svc.
Proof.
  unfold Spec.inactive, Spec.active, Spec.probe.
  induction l as [|x l IH]; simpl.
  - split; [discriminate |]. intros ([|] & after & H & _); discriminate H.
  - destruct (Os.check_output s ["systemctl"; "is-active"; "--quiet"; x])
      as [text| |] eqn:E.
    + split.
      * intros [= <-]. exists [], l. repeat split; [constructor |].
        now exists text.
      * intros ([|y before] & after & H & Hb & Ha).
        -- now injection H as ->.
        -- injection H as <- _. inversion Hb; congruence.
    + rewrite IH. split.
      * intros (before & after & -> & Hb & Ha).
        exists (x :: before), after. repeat split; [constructor |]; trivial.
      * intros ([|y before] & after & H & Hb & [text Ha]).
        -- injection H as <- _. congruence.
        -- injection H as <- ->. inversion Hb. subst.
           exists before, after. repeat split; trivial. now exists text.
    + split; [discriminate |].
      intros ([|y before] & after & H & Hb & [text Ha]).
      * injection H as <- _. congruence.
      * injection H as <- _. inversion Hb; congruence.
Qed.

Lemma first_active_none (s : Os.system) (l : list string) :
  Cron.first_active s l = Os.Returns None <-> Forall (Spec.inactive s) l.
Proof.
  unfold Spec.inactive, Spec.probe. induction l as [|x l IH]; simpl.
  - split; [constructor | reflexivity].
  - destruct (Os.check_output s ["systemctl"; "is-active"; "--quiet"; x])
      as [text| |] eqn:E.
    + split; [discriminate |]. intros H. inversion H; congruence.
    + rewrite IH. split.
      * intros H. now constructor.
      * intros H. now inversion H.
    + split; [discriminate |]. intros H. inversion H; congruence.
Qed.

Lemma first_active_raises (s : Os.system) (l : list string) :
  Cron.first_active s l = Os.Raises
  <-> exists before svc after,
        l = before ++ svc :: after
        /\ Forall (Spec.inactive s) before /\ Spec.probe s svc = Os.Fault.
Proof.
  unfold Spec.inactive, Spec.probe. induction l as [|x l IH]; simpl.
  - split; [discriminate |]. intros ([|] & svc & after & H & _); discriminate H.
  - destruct (Os.check_output s ["systemctl"; "is-active"; "--quiet"; x])
      as [text| |] eqn:E.
    + split; [discriminate |].
      intros ([|y before] & svc & after & H & Hb & Hf).
      * injection H as <- _. congruence.
      * injection H as <- _. inversion Hb; congruence.
    + rewrite IH. split.
      * intros (before & svc & after & -> & Hb & Hf).
        exists (x :: before), svc, after. repeat split; [constructor |]; trivial.
      * intros ([|y before] & svc & after & H & Hb & Hf).
        -- injection H as <- _. congruence.
        -- injection H as <- ->. inversion Hb. subst.
           now exists before, svc, after.
    + split; [| reflexivity]. intros _. exists [], x, l.
      repeat split; [constructor | exact E].
Qed.

(** X4.  [detect_scheduler] answers with the first of cron, crond and fcron
    whose probe succeeds, the ones before it having exited non-zero; with
    none when all three exit non-zero; and it raises exactly when a probe
    fails in another way before any has succeeded. *)
Theorem detect_scheduler_first (s : Os.system) :
  (forall svc,
     Cron.detect_scheduler s = Os.Returns (Some svc)
     <-> exists before after,
           ["cron.service"; "crond.service"; "fcron.service"]
           = before ++ svc :: after
           /\ Forall (Spec.inactive s) before /\ Spec.active s svc)
  /\ (Cron.detect_scheduler s = Os.Returns None
      <-> Forall (Spec.inactive s)
            ["cron.service"; "crond.service"; "fcron.service"])
  /\ (Cron.detect_scheduler s = Os.Raises
      <-> exists before svc after,
            ["cron.service"; "crond.service"; "fcron.service"]
            = before ++ svc :: after
            /\ Forall (Spec.inactive s) before
            /\ Spec.probe s svc = Os.Fault).
Proof.
  split; [| split].
  - intros svc. apply first_active_some.
  - apply first_active_none.
  - apply first_active_raises.
Qed.

(** ** Fetching the logs *)

Lemma first_active_ext (s s' : Os.system) (l : list string) :
  (forall argv, Os.check_output s' argv = Os.check_output s argv) ->
  Cron.first_active s' l = Cron.first_active s l.
Proof.
  intros H. induction l as [|x l IH]; simpl; [reflexivity |].
  rewrite H. now rewrite IH.
Qed.

Lemma file_tail_length (f : Os.log_file) :
  List.length (Spec.file_tail f) <= 500.
Proof.
  destruct f; simpl; try lia. apply last_slice_length.
Qed.

Lemma file_tail_lines (f : Os.log_file) :
  Forall Spec.file_line (Spec.file_tail f).
Proof.
  destruct f as [| |text]; simpl; try constructor.
  apply Forall_forall. intros line Hin.
  destruct (last_slice_suffix 500 (Py.readlines text)) as [pre Hpre].
  apply (readlines_from_file_line text ""); [reflexivity |].
  unfold Py.readlines in Hpre. rewrite Hpre. apply in_or_app. now right.
Qed.

Lemma read_log_files_tails (s : Os.system) :
  Cron.read_log_files s
  = Spec.file_tail (Os.path s "/var/log/syslog")
      ++ Spec.file_tail (Os.path s "/var/log/cron")
      ++ Spec.file_tail (Os.path s "/var/log/fcron.log").
Proof.
  unfold Cron.read_log_files, Cron.log_files. cbn [fold_left].
  destruct (Os.path s "/var/log/syslog"), (Os.path s "/var/log/cron"),
    (Os.path s "/var/log/fcron.log"); cbn [Spec.file_tail app];
    rewrite ?app_nil_r, <- ?app_assoc; reflexivity.
Qed.

Lemma detected_is_named (s : Os.system) (svc : string) :
  Cron.detect_scheduler s = Os.Returns (Some svc) -> Py.str_truthy svc = true.
Proof.
  intros H. apply first_active_some in H as (before & after & E & _ & _).
  assert (Hin : In svc Cron.services).
  { rewrite E. apply in_or_app. right. now left. }
  destruct Hin as [<- | [<- | [<- | []]]]; reflexivity.
Qed.

(** X5.  When a scheduler is detected and its journal answers, the logs are
    the lines of the journal output, none of which holds a line break,
    whatever the log files hold: no file is read. *)
Theorem get_logs_from_journal (s : Os.system) (minutes : nat)
    (svc output : string) :
  Cron.detect_scheduler s = Os.Returns (Some svc) ->
  Spec.journal_gives s svc minutes output ->
  (forall files,
     Cron.get_logs (Os.mk_system (Os.check_output s) files) minutes
     = Os.Returns (Py.splitlines output))
  /\ Forall Spec.no_linebreak (Py.splitlines output).
Proof.
  intros Hd Hj. split.
  - intros files. unfold Cron.get_logs, Cron.detect_scheduler.
    rewrite (first_active_ext s) by reflexivity.
    unfold Cron.detect_scheduler in Hd. rewrite Hd.
    rewrite (detected_is_named _ _ Hd).
    unfold Spec.journal_gives in Hj. unfold Cron.journal_argv.
    cbn [Os.check_output]. now rewrite Hj.
  - apply Forall_forall. intros line. apply splitlines_no_linebreak.
Qed.

(** X6.  When no scheduler is active, or the journal of the detected one
    does not answer, the logs are the last lines of syslog, cron and
    fcron.log in this order, skipping a file that is absent or cannot be
    read: at most 1500 lines, each a non-empty line of a file that keeps
    its line feed. *)
Theorem get_logs_from_files (s : Os.system) (minutes : nat) :
  Cron.detect_scheduler s = Os.Returns None
  \/ (exists svc, Cron.detect_scheduler s = Os.Returns (Some svc)
                  /\ forall output, ~ Spec.journal_gives s svc minutes output) ->
  exists logs,
    Cron.get_logs s minutes = Os.Returns logs
    /\ logs = Spec.file_tail (Os.path s "/var/log/syslog")
                ++ Spec.file_tail (Os.path s "/var/log/cron")
                ++ Spec.file_tail (Os.path s "/var/log/fcron.log")
    /\ List.length logs <= 1500
    /\ Forall Spec.file_line logs.
Proof.
  intros H. exists (Cron.read_log_files s). split; [| split; [| split]].
  - unfold Cron.get_logs. destruct H as [-> | (svc & Hd & Hj)]; [reflexivity |].
    rewrite Hd, (detected_is_named _ _ Hd).
    unfold Spec.journal_gives in Hj. unfold Cron.journal_argv.
    destruct (Os.check_output s _) as [output| |] eqn:E; trivial.
    now elim (Hj output).
  - apply read_log_files_tails.
  - rewrite read_log_files_tails, !length_app.
    pose proof (file_tail_length (Os.path s "/var/log/syslog")).
    pose proof (file_tail_length (Os.path s "/var/log/cron")).
    pose proof (file_tail_length (Os.path s "/var/log/fcron.log")). lia.
  - rewrite read_log_files_tails.
    repeat (apply Forall_app; split); apply file_tail_lines.
Qed.

Lemma get_logs_raises (s : Os.system) (minutes : nat) :
  Cron.get_logs s minutes = Os.Raises <-> Cron.detect_scheduler s = Os.Raises.
Proof.
  unfold Cron.get_logs.
  destruct (Cron.detect_scheduler s) as [[svc|]|]; try tauto;
    try (split; discriminate).
  destruct (Py.str_truthy svc); [| split; discriminate].
  destruct (Os.check_output s _); split; discriminate.
Qed.

(** X7.  A probe that fails other than by a non-zero exit, before any
    service was found active, is not caught: [main] then raises and no
    report is built.  In every other case [main] builds the report of the
    crontab and the logs fetched. *)
Theorem main_raises_with_probe (h : Cron.host) (s : Os.system) :
  (Cron.main_on h s = Os.Raises
   <-> exists before svc after,
         ["cron.service"; "crond.service"; "fcron.service"]
         = before ++ svc :: after
         /\ Forall (Spec.inactive s) before
         /\ Spec.probe s svc = Os.Fault)
  /\ (forall logs,
        Cron.get_logs s Cron.CHECK_MINUTES = Os.Returns logs ->
        Cron.main_on h s = Os.Returns (Cron.main h logs))
  /\ (Cron.main_on h s <> Os.Raises ->
      exists logs, Cron.get_logs s Cron.CHECK_MINUTES = Os.Returns logs).
Proof.
  split; [| split].
  - rewrite <- (first_active_raises s Cron.services).
    change (Cron.first_active s Cron.services) with (Cron.detect_scheduler s).
    rewrite <- (get_logs_raises s Cron.CHECK_MINUTES). unfold Cron.main_on.
    destruct (Cron.get_logs s Cron.CHECK_MINUTES); split; trivial; discriminate.
  - intros logs H. unfold Cron.main_on. now rewrite H.
  - unfold Cron.main_on.
    destruct (Cron.get_logs s Cron.CHECK_MINUTES) as [logs|].
    + intros _. now exists logs.
    + intros H. now elim H.
Qed.

(** X8.  The lines taken from a log file, [f.readlines()[-500:]], are at
    most 500, each a non-empty line that keeps its line feed; joined they are
    an end piece of the file's text, and the whole text when the file has no
    more than 500 lines. *)
Theorem file_tail_is_suffix (text : string) :
  List.length (Py.last_slice 500 (Py.readlines text)) <= 500
  /\ Forall Spec.file_line (Py.last_slice 500 (Py.readlines text))
  /\ Spec.text_suffix (Py.join "" (Py.last_slice 500 (Py.readlines text))) text
  /\ (List.length (Py.readlines text) <= 500 ->
      Py.join "" (Py.last_slice 500 (Py.readlines text)) = text).
Proof.
  split; [apply last_slice_length |].
  split; [apply (file_tail_lines (Os.Text text)) |].
  assert (Hall : Py.join "" (Py.readlines text) = text).
  { unfold Py.readlines. now rewrite readlines_from_join. }
  split.
  - destruct (last_slice_suffix 500 (Py.readlines text)) as [pre Hpre].
    exists (Py.join "" pre). rewrite <- join_empty_app, <- Hpre. now symmetry.
  - intros H. now rewrite last_slice_all.
Qed.

(** ** Extraction composes *)

Lemma filter_twice {A} (p : A -> bool) (l : list A) :
  filter p (filter p l) = filter p l.
Proof.
  induction l as [|x l IH]; simpl; [reflexivity |].
  destruct (p x) eqn:E; simpl; [now rewrite E, IH | exact IH].
Qed.

Lemma parse_logs_app (a b : list string) :
  Cron.parse_logs (a ++ b) = Cron.parse_logs a ++ Cron.parse_logs b.
Proof. rewrite !parse_logs_filter. apply filter_app. Qed.

(** X10.  Extracting events from logs put end to end gives the events of each
    part put end to end, and extracting again from the events changes
    nothing, in both scripts. *)
Theorem extraction_composes (a b : list string) :
  Cron.parse_logs (a ++ b) = Cron.parse_logs a ++ Cron.parse_logs b
  /\ Cron.parse_logs (Cron.parse_logs a) = Cron.parse_logs a
  /\ Fcron.parse_fcron_logs (a ++ b)
     = Fcron.parse_fcron_logs a ++ Fcron.parse_fcron_logs b
  /\ Fcron.parse_fcron_logs (Fcron.parse_fcron_logs a)
     = Fcron.parse_fcron_logs a.
Proof.
  rewrite !parse_logs_filter, !parse_fcron_logs_filter.
  repeat split; try apply filter_app; apply filter_twice.
Qed.

Lemma fcron_contains_cron (line : string) :
  Spec.Substring "fcron" line -> Spec.Substring "cron" line.
Proof.
  intros (pre & post & ->). exists (pre ++ "f")%string, post.
  now rewrite append_assoc.
Qed.

(** X11.  The third alternative of the cron pattern never decides: the
    cron extractor keeps exactly the lines that hold [CRON] or [cron]. *)
Theorem cron_pattern_two_tokens (logs : list string) :
  Spec.Selected
    (fun line => Spec.Substring "CRON" line \/ Spec.Substring "cron" line)
    logs (Cron.parse_logs logs).
Proof.
  rewrite parse_logs_filter. apply filter_Selected. intros line.
  rewrite search_cron_tokens_spec. unfold Spec.cron_relevant.
  pose proof (fcron_contains_cron line). tauto.
Qed.

(** ** The size of the report *)

(** X12.  The report is never empty.  The cron report has one entry per
    declared job, or one when none is declared, plus one per event that marks
    a failure; the fcron report has one entry per event, or one when there
    is no event; the embed has one field per entry. *)
Theorem report_size (jobs logs : list string) :
  (exists failing,
     Spec.Selected Spec.marks_failure (Cron.parse_logs logs) failing
     /\ List.length (Cron.main_results jobs logs)
        = Nat.max 1 (List.length jobs) + List.length failing)
  /\ List.length (Fcron.main_results logs)
     = Nat.max 1 (List.length (Fcron.parse_fcron_logs logs))
  /\ Cron.main_results jobs logs <> []
  /\ Fcron.main_results logs <> []
  /\ List.length
       (Report.fields (Cron.send_discord_report (Cron.main_results jobs logs)))
     = List.length (Cron.main_results jobs logs)
  /\ List.length (Report.fields (Fcron.main logs))
     = List.length (Fcron.main_results logs).
Proof.
  destruct (cron_results_selected jobs logs) as (failing & Hsel & Heq).
  assert (Hc : List.length (Cron.main_results jobs logs)
               = Nat.max 1 (List.length jobs) + List.length failing).
  { rewrite Heq, !length_app, !length_map. destruct jobs; reflexivity. }
  assert (Hf : List.length (Fcron.main_results logs)
               = Nat.max 1 (List.length (Fcron.parse_fcron_logs logs))).
  { rewrite fcron_results_shape.
    destruct (Fcron.parse_fcron_logs logs); [reflexivity |].
    rewrite length_map. simpl. lia. }
  split; [now exists failing |]. split; [exact Hf |].
  split; [| split; [| split]].
  - intros E. rewrite E in Hc. cbn [List.length] in Hc. lia.
  - intros E. rewrite E in Hf. cbn [List.length] in Hf. lia.
  - cbn [Report.fields Cron.send_discord_report].
    now rewrite cron_fields_map, length_map.
  - unfold Fcron.main. cbn [Report.fields Fcron.send_discord_report].
    now rewrite fcron_fields_map, length_map.
Qed.

(** ** The severity of each report *)

Lemma has_status_app (st : Report.Status) (a b : list Report.entry) :
  Spec.has_status st (a ++ b)
  <-> Spec.has_status st a \/ Spec.has_status st b.
Proof.
  unfold Spec.has_status. split.
  - intros (r & Hr & Hs). apply in_app_or in Hr as [Hr | Hr];
      [left | right]; now exists r.
  - intros [(r & Hr & Hs) | (r & Hr & Hs)]; exists r; split; trivial;
      apply in_or_app; auto.
Qed.

Lemma has_status_map {A} (st : Report.Status) (f : A -> Report.entry)
    (l : list A) :
  Spec.has_status st (map f l)
  <-> exists x, In x l /\ Report.status (f x) = st.
Proof.
  unfold Spec.has_status. split.
  - intros (r & Hr & Hs). apply in_map_iff in Hr as (x & <- & Hx). now exists x.
  - intros (x & Hx & Hs). exists (f x). split; [now apply in_map | exact Hs].
Qed.

Lemma job_entry_success (events : list string) (j : string) :
  Report.status (Spec.job_entry events j) = Report.success
  <-> exists e, In e events /\ Spec.Substring (Cron.job_cmd j) e.
Proof.
  split; [| apply job_entry_ran]. intros H.
  unfold Spec.job_entry in H.
  destruct (existsb _ events) eqn:E; [| discriminate H].
  apply existsb_exists in E as (e & He & Hs). exists e.
  now rewrite <- str_in_spec.
Qed.

Lemma job_entry_missing (events : list string) (j : string) :
  Report.status (Spec.job_entry events j) = Report.missing
  <-> ~ (exists e, In e events /\ Spec.Substring (Cron.job_cmd j) e).
Proof.
  split; [| apply job_entry_not_run]. intros H Hex.
  apply job_entry_success in Hex. congruence.
Qed.

Lemma job_entry_not_failed (events : list string) (j : string) :
  Report.status (Spec.job_entry events j) <> Report.failed.
Proof. unfold Spec.job_entry. destruct (existsb _ events); discriminate. Qed.

Lemma cron_has_failed (jobs logs : list string) :
  Spec.has_status Report.failed (Cron.main_results jobs logs)
  <-> exists e, In e (Cron.parse_logs logs) /\ Spec.marks_failure e.
Proof.
  rewrite cron_results_shape, !has_status_app, !has_status_map. split.
  - intros [(r & Hr & Hs) | [(j & _ & Hs) | (e & He & _)]].
    + destruct jobs; [| contradiction]. destruct Hr as [<- | []]. discriminate Hs.
    + now apply job_entry_not_failed in Hs.
    + apply filter_In in He as [He Ht]. exists e. split; [exact He |].
      now apply failure_test_spec.
  - intros (e & He & Hm). right. right. exists e. split; [| reflexivity].
    apply filter_In. split; [exact He |]. now apply failure_test_spec.
Qed.

Lemma cron_has_missing (jobs logs : list string) :
  Spec.has_status Report.missing (Cron.main_results jobs logs)
  <-> jobs = []
      \/ exists j, In j jobs
                   /\ ~ (exists e, In e (Cron.parse_logs logs)
                                   /\ Spec.Substring (Cron.job_cmd j) e).
Proof.
  rewrite cron_results_shape, !has_status_app, !has_status_map. split.
  - intros [(r & Hr & Hs) | [(j & Hj & Hs) | (e & _ & Hs)]].
    + destruct jobs; [now left | contradiction].
    + right. exists j. split; [exact Hj |]. now apply job_entry_missing.
    + discriminate Hs.
  - intros [-> | (j & Hj & Hn)].
    + left. exists Cron.no_crontab_entry. split; [now left | reflexivity].
    + right. left. exists j. split; [exact Hj |]. now apply job_entry_missing.
Qed.

(** X13.  The cron report is Failed exactly when some extracted event marks
    a failure, whatever the jobs; it is Success exactly when jobs are
    declared, the label of each occurs in some event and no event marks a
    failure; otherwise it is Missing. *)
Theorem cron_severity (jobs logs : list string) :
  let sev := Spec.overall_severity (Cron.send_discord_report
                                      (Cron.main_results jobs logs)) in
  let fails := exists e, In e (Cron.parse_logs logs) /\ Spec.marks_failure e in
  let ran j := exists e, In e (Cron.parse_logs logs)
                         /\ Spec.Substring (Cron.job_cmd j) e in
  (sev = Some Report.failed <-> fails)
  /\ (sev = Some Report.success
      <-> jobs <> [] /\ (forall j, In j jobs -> ran j) /\ ~ fails)
  /\ (sev = Some Report.missing
      <-> ~ fails /\ (jobs = [] \/ exists j, In j jobs /\ ~ ran j)).
Proof.
  intros sev fails ran.
  destruct (embed_color_by_priority (Cron.main_results jobs logs))
    as (Hf & Hm & Hs).
  fold sev in Hf, Hm, Hs.
  rewrite cron_has_failed in Hf, Hm, Hs. rewrite cron_has_missing in Hm, Hs.
  fold fails in Hf, Hm, Hs.
  split; [exact Hf |]. split; [| exact Hm].
  rewrite Hs. split.
  - intros [Hnf Hnm]. split; [| split; [| exact Hnf]].
    + intros ->. apply Hnm. now left.
    + intros j Hj. unfold ran. apply job_entry_success.
      destruct (Report.status (Spec.job_entry (Cron.parse_logs logs) j)) eqn:E;
        trivial.
      * elim Hnm. right. exists j. split; [exact Hj |].
        now apply job_entry_missing.
      * now apply job_entry_not_failed in E.
  - intros (Hj & Hall & Hnf). split; [exact Hnf |].
    intros [-> | (j & Hin & Hn)]; [now apply Hj |]. now apply Hn, Hall.
Qed.

Lemma event_entry_failed (e : string) :
  Report.status (Fcron.event_entry e) = Report.failed
  <-> exists d, Spec.exit_text e d /\ d <> "0".
Proof.
  destruct (first_or_none _ _ match_exit_spec e) as [[d Hd] | Hn].
  - rewrite (event_entry_exit_text _ _ Hd). cbv zeta.
    destruct (d =? "0")%string eqn:E; cbn [negb].
    + apply String.eqb_eq in E. subst d. split; [discriminate |].
      intros (d' & Hd' & Hne). elim Hne.
      apply (first_token_unique _ _ match_exit_spec e); assumption.
    + apply String.eqb_neq in E. split; [| reflexivity].
      intros _. now exists d.
  - rewrite (event_entry_no_exit _ Hn). split; [discriminate |].
    intros (d & (n & Hd & _) & _). now apply Hn in Hd.
Qed.

Lemma event_entry_success (e : string) :
  Report.status (Fcron.event_entry e) = Report.success
  <-> Spec.exit_text e "0" \/ Spec.no_token Spec.exit_head e.
Proof.
  destruct (first_or_none _ _ match_exit_spec e) as [[d Hd] | Hn].
  - rewrite (event_entry_exit_text _ _ Hd). cbv zeta.
    destruct (d =? "0")%string eqn:E; cbn [negb].
    + apply String.eqb_eq in E. subst d. split; [now left | reflexivity].
    + apply String.eqb_neq in E. split; [discriminate |].
      intros [H0 | Hn].
      * elim E. apply (first_token_unique _ _ match_exit_spec e); assumption.
      * destruct Hd as (n & Hd & _). now apply Hn in Hd.
  - rewrite (event_entry_no_exit _ Hn). split; [now right | reflexivity].
Qed.

(** X14.  The fcron report is Missing exactly when no event was extracted;
    with events it is Failed exactly when the exit-status text of some event
    is not [0], and Success otherwise. *)
Theorem fcron_severity (logs : list string) :
  let sev := Spec.overall_severity (Fcron.main logs) in
  (sev = Some Report.missing <-> Fcron.parse_fcron_logs logs = [])
  /\ (sev = Some Report.failed
      <-> exists e d, In e (Fcron.parse_fcron_logs logs)
                      /\ Spec.exit_text e d /\ d <> "0")
  /\ (sev = Some Report.success
      <-> Fcron.parse_fcron_logs logs <> []
          /\ forall e, In e (Fcron.parse_fcron_logs logs) ->
                       Spec.exit_text e "0"
                       \/ Spec.no_token Spec.exit_head e).
Proof.
  intros sev.
  destruct (embed_color_by_priority (Fcron.main_results logs))
    as (Hf & Hm & Hs).
  change (Spec.overall_severity
            (Cron.send_discord_report (Fcron.main_results logs)))
    with sev in Hf, Hm, Hs.
  assert (HF : Spec.has_status Report.failed (Fcron.main_results logs)
               <-> exists e d, In e (Fcron.parse_fcron_logs logs)
                               /\ Spec.exit_text e d /\ d <> "0").
  { rewrite fcron_results_shape.
    destruct (Fcron.parse_fcron_logs logs) as [|x events].
    - split.
      + intros (r & [<- | []] & Hs'). discriminate Hs'.
      + intros (e & d & [] & _).
    - rewrite has_status_map. split.
      + intros (e & He & Hs'). apply event_entry_failed in Hs' as (d & Hd).
        now exists e, d.
      + intros (e & d & He & Hd). exists e. split; [exact He |].
        apply event_entry_failed. now exists d. }
  assert (HM : Spec.has_status Report.missing (Fcron.main_results logs)
               <-> Fcron.parse_fcron_logs logs = []).
  { rewrite fcron_results_shape.
    destruct (Fcron.parse_fcron_logs logs) as [|x events].
    - split; [reflexivity |]. intros _. exists Fcron.no_activity_entry.
      split; [now left | reflexivity].
    - rewrite has_status_map. split; [| discriminate].
      intros (e & _ & Hs'). now apply event_entry_status in Hs'. }
  rewrite HF in Hf, Hm, Hs. rewrite HM in Hm, Hs.
  split; [| split; [exact Hf |]].
  - rewrite Hm. split; [tauto |]. intros E. split; [| exact E].
    rewrite E. intros (e & d & [] & _).
  - rewrite Hs. split.
    + intros [Hnf Hne]. split; [exact Hne |]. intros e He.
      apply event_entry_success.
      destruct (Report.status (Fcron.event_entry e)) eqn:E; trivial.
      * now apply event_entry_status in E.
      * elim Hnf. apply event_entry_failed in E as (d & Hd).
        now exists e, d.
    + intros [Hne Hall]. split; [| exact Hne].
      intros (e & d & He & Hd & Hd0).
      assert (Hfail : Report.status (Fcron.event_entry e) = Report.failed).
      { apply event_entry_failed. now exists d. }
      apply Hall, event_entry_success in He. congruence.
Qed.

(** ** More log lines *)

Lemma cron_failed_iff (jobs logs : list string) :
  Spec.overall_severity
    (Cron.send_discord_report (Cron.main_results jobs logs))
  = Some Report.failed
  <-> exists e, In e (Cron.parse_logs logs) /\ Spec.marks_failure e.
Proof.
  rewrite <- cron_has_failed.
  apply (embed_color_by_priority (Cron.main_results jobs logs)).
Qed.

Lemma Forall2_map_both {A B C} (R : B -> C -> Prop) (f : A -> B) (g : A -> C)
    (l : list A) :
  (forall x, R (f x) (g x)) -> Forall2 R (map f l) (map g l).
Proof. intros H. induction l; simpl; constructor; auto. Qed.

(** X15.  Log lines added after or before the ones at hand never take a
    Success away from a declared job, and never clear a Failed report. *)
Theorem more_logs_keep_success (jobs logs more : list string) :
  Forall2
    (fun r r' =>
       Report.job r' = Report.job r
       /\ (Report.status r = Report.success ->
           Report.status r' = Report.success))
    (Spec.per_job_entries jobs logs)
    (Spec.per_job_entries jobs (logs ++ more))
  /\ Forall2
       (fun r r' =>
          Report.job r' = Report.job r
          /\ (Report.status r = Report.success ->
              Report.status r' = Report.success))
       (Spec.per_job_entries jobs logs)
       (Spec.per_job_entries jobs (more ++ logs))
  /\ (Spec.overall_severity
        (Cron.send_discord_report (Cron.main_results jobs logs))
      = Some Report.failed ->
      Spec.overall_severity
        (Cron.send_discord_report (Cron.main_results jobs (logs ++ more)))
      = Some Report.failed
      /\ Spec.overall_severity
           (Cron.send_discord_report (Cron.main_results jobs (more ++ logs)))
         = Some Report.failed).
Proof.
  rewrite !per_job_entries_map, !parse_logs_app.
  split; [| split].
  - apply Forall2_map_both. intros j. rewrite !job_entry_job.
    split; [reflexivity |]. rewrite !job_entry_success.
    intros (e & He & Hs). exists e. split; [| exact Hs].
    apply in_or_app. now left.
  - apply Forall2_map_both. intros j. rewrite !job_entry_job.
    split; [reflexivity |]. rewrite !job_entry_success.
    intros (e & He & Hs). exists e. split; [| exact Hs].
    apply in_or_app. now right.
  - intros H. apply cron_failed_iff in H as (e & He & Hm). split.
    + apply cron_failed_iff. exists e. split; [| exact Hm].
      rewrite parse_logs_app. apply in_or_app. now left.
    + apply cron_failed_iff. exists e. split; [| exact Hm].
      rewrite parse_logs_app. apply in_or_app. now right.
Qed.

(** ** The label of an fcron entry *)

Lemma event_entry_job (e : string) :
  Report.job (Fcron.event_entry e)
  = match Re.search_cmd e with Some g => g | None => "Unknown job" end.
Proof.
  unfold Fcron.event_entry.
  destruct (Py.str_in "EXIT STATUS" e); [| reflexivity].
  destruct (Re.search_exit e) as [g|]; [| reflexivity].
  now destruct (negb (g =? "0")%string).
Qed.

(** X16.  No label of the fcron report holds a closing parenthesis or a line
    feed: the text of a [CMD (...)] token is cut at its first closing
    parenthesis. *)
Theorem fcron_label_no_parenthesis (logs : list string) (r : Report.entry) :
  In r (Fcron.main_results logs) ->
  Spec.all_chars
    (fun c => negb (Ascii.eqb c ")") && negb (N_of_ascii c =? 10)%N)
    (Report.job r) = true.
Proof.
  rewrite fcron_results_shape.
  destruct (Fcron.parse_fcron_logs logs) as [|x events].
  - intros [<- | []]. reflexivity.
  - intros Hin. apply in_map_iff in Hin as (e & <- & _).
    rewrite event_entry_job.
    destruct (Re.search_cmd e) as [g|] eqn:E; [| reflexivity].
    apply search_cmd_some in E as (n & (pre & s & _ & _ & post & _ & Hg) & _).
    exact Hg.
Qed.

(** ** Fields and entries *)

Lemma field_of_injective (r1 r2 : Report.entry) :
  Spec.field_of Cron.status_icon r1 = Spec.field_of Cron.status_icon r2 ->
  r1 = r2.
Proof.
  destruct r1 as [j1 s1 m1], r2 as [j2 s2 m2]. unfold Spec.field_of.
  cbn [Report.job Report.message]. intros H.
  injection H as Hn ->.
  destruct s1, s2; vm_compute in Hn; first [discriminate Hn | idtac];
    injection Hn as ->; reflexivity.
Qed.

Lemma map_injective {A B} (f : A -> B) (l1 l2 : list A) :
  (forall x y, f x = f y -> x = y) -> map f l1 = map f l2 -> l1 = l2.
Proof.
  intros Hf. revert l2. induction l1 as [|x l1 IH]; intros [|y l2]; simpl;
    try discriminate; trivial.
  intros [= Hx Hl]. f_equal; [now apply Hf | now apply IH].
Qed.

(** X17.  The fields of the embed determine the entries: two result lists
    with the same fields are the same list, in either script, so no entry is
    lost or merged on the way to the notification. *)
Theorem fields_determine_entries (rs1 rs2 : list Report.entry) :
  (Report.fields (Cron.send_discord_report rs1)
   = Report.fields (Cron.send_discord_report rs2) -> rs1 = rs2)
  /\ (Report.fields (Fcron.send_discord_report rs1)
      = Report.fields (Fcron.send_discord_report rs2) -> rs1 = rs2).
Proof.
  split; cbn [Report.fields Cron.send_discord_report Fcron.send_discord_report].
  - rewrite !cron_fields_map. apply map_injective, field_of_injective.
  - rewrite !fcron_fields_map. apply map_injective, field_of_injective.
Qed.

(** ** The further properties at concrete inputs *)

Lemma crontab_jobs_clean_witness :
  In "*/5 * * * * /usr/bin/backup.sh  -q" (Cron.get_crontab Sample.commented)
  /\ "*/5 * * * * /usr/bin/backup.sh  -q" <> ""
  /\ Spec.trimmed "*/5 * * * * /usr/bin/backup.sh  -q"
  /\ Spec.no_linebreak "*/5 * * * * /usr/bin/backup.sh  -q"
  /\ Py.strip "*/5 * * * * /usr/bin/backup.sh  -q"
     = "*/5 * * * * /usr/bin/backup.sh  -q".
Proof.
  assert (H : In "*/5 * * * * /usr/bin/backup.sh  -q"
                (Cron.get_crontab Sample.commented)).
  { right. left. reflexivity. }
  split; [exact H |]. apply (crontab_jobs_clean _ _ H).
Defined.

Lemma indented_comment_line :
  In "  # nightly"
    (Py.splitlines
       ("# backups" ++ Py.nl ++ "  # nightly" ++ Py.nl
          ++ " */5 * * * * /usr/bin/backup.sh  -q " ++ Py.nl)).
Proof. vm_compute. right. left. reflexivity. Qed.

Lemma indented_comment_stripped : Py.strip "  # nightly" <> "".
Proof. vm_compute. discriminate. Qed.

Lemma crontab_jobs_from_lines_witness :
  Cron.which_crontab Sample.commented = true
  /\ In (Py.strip "  # nightly") (Cron.get_crontab Sample.commented).
Proof.
  split; [reflexivity |].
  assert (Hc : Cron.crontab_l Sample.commented
               = Cron.Output
                   ("# backups" ++ Py.nl ++ "  # nightly" ++ Py.nl
                      ++ " */5 * * * * /usr/bin/backup.sh  -q " ++ Py.nl)).
  { reflexivity. }
  destruct (crontab_jobs_from_lines Sample.commented _ eq_refl Hc)
    as (kept & _ & _ & H).
  apply (H _ indented_comment_line indented_comment_stripped).
  intros [rest Hr]. discriminate Hr.
Defined.

Lemma detect_scheduler_first_witness :
  Cron.detect_scheduler Sample.with_crond = Os.Returns (Some "crond.service").
Proof.
  apply (proj1 (detect_scheduler_first Sample.with_crond)).
  exists ["cron.service"], ["fcron.service"].
  split; [reflexivity |]. split.
  - constructor; [reflexivity | constructor].
  - exists "". reflexivity.
Defined.

Lemma get_logs_from_journal_witness :
  Cron.detect_scheduler Sample.with_crond = Os.Returns (Some "crond.service")
  /\ Cron.get_logs
       (Os.mk_system (Os.check_output Sample.with_crond)
          (fun _ => Os.Unreadable)) 10
     = Os.Returns
         ["Nov 04 10:00:01 box CRON[1]: (root) CMD (/usr/bin/backup.sh)";
          "Nov 04 10:00:02 box crond[2]: reloaded"].
Proof.
  split; [reflexivity |].
  assert (Hj : Spec.journal_gives Sample.with_crond "crond.service" 10
                 ("Nov 04 10:00:01 box CRON[1]: (root) CMD (/usr/bin/backup.sh)"
                    ++ Py.nl ++ "Nov 04 10:00:02 box crond[2]: reloaded")).
  { reflexivity. }
  exact (proj1 (get_logs_from_journal Sample.with_crond 10 "crond.service" _
                  eq_refl Hj) (fun _ => Os.Unreadable)).
Defined.

Lemma get_logs_from_files_witness :
  Cron.detect_scheduler Sample.with_files = Os.Returns None
  /\ exists logs,
       Cron.get_logs Sample.with_files 10 = Os.Returns logs
       /\ List.length logs <= 1500.
Proof.
  split; [reflexivity |].
  destruct (get_logs_from_files Sample.with_files 10 (or_introl eq_refl))
    as (logs & H1 & _ & H3 & _).
  exists logs. split; assumption.
Defined.

Lemma main_raises_with_probe_witness :
  Cron.main_on Sample.commented Sample.bare = Os.Raises
  /\ exists logs,
       Cron.get_logs Sample.with_files Cron.CHECK_MINUTES = Os.Returns logs.
Proof.
  split.
  - apply (proj1 (main_raises_with_probe Sample.commented Sample.bare)).
    exists [], "cron.service", ["crond.service"; "fcron.service"].
    split; [reflexivity |]. split; [constructor | reflexivity].
  - apply (proj2 (proj2 (main_raises_with_probe Sample.commented
                           Sample.with_files))).
    vm_compute. discriminate.
Defined.

Lemma file_tail_is_suffix_witness :
  List.length (Py.readlines ("first" ++ Py.nl ++ "second")) <= 500
  /\ Py.join "" (Py.last_slice 500 (Py.readlines ("first" ++ Py.nl ++ "second")))
     = ("first" ++ Py.nl ++ "second")%string.
Proof.
  assert (H : List.length (Py.readlines ("first" ++ Py.nl ++ "second")) <= 500).
  { vm_compute. lia. }
  split; [exact H |].
  apply (proj2 (proj2 (proj2 (file_tail_is_suffix _))) H).
Defined.

Lemma cron_severity_witness :
  Spec.overall_severity
    (Cron.send_discord_report
       (Cron.main_results ["* * * * * job1"]
          ["cron[7]: (root) CMD (job1)"; "cron[7]: EXIT STATUS (2)"]))
  = Some Report.failed.
Proof.
  apply (proj1 (cron_severity ["* * * * * job1"]
                  ["cron[7]: (root) CMD (job1)"; "cron[7]: EXIT STATUS (2)"])).
  exists "cron[7]: EXIT STATUS (2)". split.
  - right. left. reflexivity.
  - apply failure_test_spec. reflexivity.
Defined.

Lemma fcron_severity_witness :
  Spec.overall_severity (Fcron.main ["kernel: nothing for us"])
  = Some Report.missing.
Proof.
  apply (proj1 (fcron_severity ["kernel: nothing for us"])). reflexivity.
Defined.

Lemma more_logs_keep_success_witness :
  Spec.overall_severity
    (Cron.send_discord_report
       (Cron.main_results ["* * * * * job1"] ["cron[7]: EXIT STATUS (2)"]))
  = Some Report.failed
  /\ Spec.overall_severity
       (Cron.send_discord_report
          (Cron.main_results ["* * * * * job1"]
             (["cron[7]: EXIT STATUS (2)"] ++ ["cron[8]: (root) CMD (job1)"])))
     = Some Report.failed.
Proof.
  assert (H : Spec.overall_severity
                (Cron.send_discord_report
                   (Cron.main_results ["* * * * * job1"]
                      ["cron[7]: EXIT STATUS (2)"]))
              = Some Report.failed).
  { reflexivity. }
  split; [exact H |].
  apply (proj2 (proj2 (more_logs_keep_success ["* * * * * job1"]
                         ["cron[7]: EXIT STATUS (2)"]
                         ["cron[8]: (root) CMD (job1)"])) H).
Defined.

Lemma fcron_label_no_parenthesis_witness :
  In (Report.mk_entry "echo $(date" Report.success "Ran successfully.")
    (Fcron.main_results ["fcron[1]: Job x CMD (echo $(date)) EXIT STATUS (0)"])
  /\ Spec.all_chars
       (fun c => negb (Ascii.eqb c ")") && negb (N_of_ascii c =? 10)%N)
       "echo $(date" = true.
Proof.
  assert (H : In (Report.mk_entry "echo $(date" Report.success
                    "Ran successfully.")
                (Fcron.main_results
                   ["fcron[1]: Job x CMD (echo $(date)) EXIT STATUS (0)"])).
  { left. reflexivity. }
  split; [exact H |].
  exact (fcron_label_no_parenthesis _ _ H).
Defined.

Lemma fields_determine_entries_witness :
  Report.fields
    (Cron.send_discord_report
       [Report.mk_entry "job1" Report.success "ok"])
  = Report.fields
      (Cron.send_discord_report
         [Report.mk_entry "job1" Report.success "ok"])
  /\ [Report.mk_entry "job1" Report.success "ok"]
     = [Report.mk_entry "job1" Report.success "ok"].
Proof.
  split; [reflexivity |].
  apply (proj1 (fields_determine_entries _ _)). reflexivity.
Defined.


(** * The label, the failure entries and the run on a machine *)

(** ** Joining by single spaces *)

Lemma join_concat (sep : string) (l : list string) :
  Py.join sep l = String.concat sep l.
Proof.
  induction l as [|x l IH]; [reflexivity |].
  destruct l as [|y l]; [reflexivity |].
  change (Py.join sep (x :: y :: l))
    with (x ++ sep ++ Py.join sep (y :: l))%string.
  now rewrite IH.
Qed.

Lemma job_cmd_concat (job : string) (toks : list string) :
  Spec.Tokens job toks -> Cron.job_cmd job = String.concat " " (skipn 5 toks).
Proof.
  intros H. unfold Cron.job_cmd.
  now rewrite (Tokens_split _ _ H), join_concat.
Qed.

(** C9.  Every line has tokens, whatever it holds, and its label is the
    tokens after the first five with one space between neighbours; with
    fewer than six tokens the label is the empty string. *)
Theorem job_cmd_tokens (job : string) :
  (exists toks, Spec.Tokens job toks)
  /\ forall toks,
       Spec.Tokens job toks ->
       Cron.job_cmd job = String.concat " " (skipn 5 toks)
       /\ (List.length toks < 6 -> Cron.job_cmd job = "").
Proof.
  split.
  - exists (Py.split job). apply split_Tokens.
  - intros toks H. split; [now apply job_cmd_concat | now apply job_cmd_short].
Qed.

(** X3.  The label is the tokens of the declared line after the fifth with
    one space between neighbours, so a run of whitespace inside the command
    becomes a single space; cutting the label into tokens again gives those
    same tokens, and the label is empty exactly when the line has fewer than
    six tokens. *)
Theorem job_cmd_retokenised (job : string) (toks : list string) :
  Spec.Tokens job toks ->
  Cron.job_cmd job = String.concat " " (skipn 5 toks)
  /\ Spec.Tokens (Cron.job_cmd job) (skipn 5 toks)
  /\ Py.split (Cron.job_cmd job) = skipn 5 (Py.split job)
  /\ (Cron.job_cmd job = "" <-> List.length toks < 6).
Proof.
  intros HT. pose proof (Tokens_words _ _ HT) as Hw.
  pose proof (Tokens_split _ _ HT) as Hs.
  assert (HL : Spec.Tokens (Cron.job_cmd job) (skipn 5 toks)).
  { unfold Cron.job_cmd. rewrite Hs.
    now apply join_words_Tokens, Forall_skipn_keep. }
  split; [now apply job_cmd_concat |]. split; [exact HL |]. split.
  - rewrite Hs. now apply Tokens_split.
  - split.
    + intros E. unfold Cron.job_cmd in E. rewrite Hs in E.
      apply join_words_empty in E; [| now apply Forall_skipn_keep].
      assert (HE : List.length (skipn 5 toks) = 0) by now rewrite E.
      rewrite length_skipn in HE. lia.
    + now apply job_cmd_short.
Qed.

(** ** The entry of a declared job *)

Lemma job_entry_by_tokens (events : list string) (j : string) :
  exists toks,
    Spec.Tokens j toks
    /\ Report.job (Spec.job_entry events j)
       = String.concat " " (skipn 5 toks)
    /\ (Report.status (Spec.job_entry events j) = Report.success
        <-> exists e, In e events
                      /\ Spec.Substring (String.concat " " (skipn 5 toks)) e)
    /\ (Report.status (Spec.job_entry events j) = Report.missing
        <-> ~ (exists e, In e events
                         /\ Spec.Substring
                              (String.concat " " (skipn 5 toks)) e)).
Proof.
  exists (Py.split j). pose proof (split_Tokens j) as HT.
  split; [exact HT |].
  rewrite job_entry_job, <- (job_cmd_concat _ _ HT).
  split; [reflexivity |].
  split; [apply job_entry_success | apply job_entry_missing].
Qed.

(** C1.  Each declared job has its entry.  The label of the entry is the
    tokens of the declared line after the first five, one space between
    neighbours; the entry is Success when that label occurs in the line of
    some extracted event and Missing otherwise.  With jobs declared and no
    event extracted, the report is these entries and all of them are
    Missing. *)
Theorem job_status_by_containment (jobs logs : list string) :
  Forall2
    (fun j r =>
       exists toks,
         Spec.Tokens j toks
         /\ Report.job r = String.concat " " (skipn 5 toks)
         /\ ((exists e, In e (Cron.parse_logs logs)
                        /\ Spec.Substring
                             (String.concat " " (skipn 5 toks)) e) ->
             Report.status r = Report.success)
         /\ (~ (exists e, In e (Cron.parse_logs logs)
                          /\ Spec.Substring
                               (String.concat " " (skipn 5 toks)) e) ->
             Report.status r = Report.missing))
    jobs (Spec.per_job_entries jobs logs)
  /\ (jobs <> [] -> Cron.parse_logs logs = [] ->
      Cron.main_results jobs logs = Spec.per_job_entries jobs logs
      /\ Forall (fun r => Report.status r = Report.missing)
           (Cron.main_results jobs logs)).
Proof.
  split.
  - rewrite per_job_entries_map. apply Forall2_map_right. intros j.
    destruct (job_entry_by_tokens (Cron.parse_logs logs) j)
      as (toks & HT & Hjob & Hs & Hm).
    exists toks. split; [exact HT |]. split; [exact Hjob |].
    split; [apply Hs | apply Hm].
  - intros Hj He. rewrite (no_events_no_failures _ _ He).
    destruct jobs as [|j jobs]; [contradiction |]. cbn [app]. split; trivial.
    rewrite per_job_entries_map, He. apply Forall_forall.
    intros r Hr. apply in_map_iff in Hr as (j' & <- & _).
    apply job_entry_not_run. intros (e & [] & _).
Qed.

(** ** Failure entries *)

Lemma append_cancel_r (a b c : string) :
  (a ++ c)%string = (b ++ c)%string -> a = b.
Proof.
  intros H. apply (append_same_length a c b c H).
  apply (f_equal String.length) in H. rewrite !length_append in H. lia.
Qed.

Lemma failure_entry_injective (e1 e2 : string) :
  Cron.failure_entry e1 = Cron.failure_entry e2 -> e1 = e2.
Proof.
  unfold Cron.failure_entry. intros [= H].
  now apply append_cancel_r in H.
Qed.

Lemma failure_entry_in_results (jobs logs : list string) (e : string) :
  In (Cron.failure_entry e) (Cron.main_results jobs logs)
  <-> In e (Cron.parse_logs logs) /\ Spec.marks_failure e.
Proof.
  rewrite cron_results_shape, !in_app_iff, <- failure_test_spec. split.
  - intros [H | [H | H]].
    + destruct jobs; [| contradiction]. destruct H as [H | []]. discriminate H.
    + apply in_map_iff in H as (j & Hj & _).
      apply (f_equal Report.status) in Hj.
      now apply job_entry_not_failed in Hj.
    + apply in_map_iff in H as (x & Hx & Hin).
      apply failure_entry_injective in Hx. subst x.
      now apply filter_In in Hin.
  - intros H. right. right. apply in_map. now apply filter_In.
Qed.

(** C2, as the code has it.  After the synthetic entry, if any, and the
    entries of the declared jobs, each with its label and its status by
    containment, the report has one entry per extracted event whose line
    holds [EXIT STATUS] and nowhere holds [EXIT STATUS (0)], in event order:
    labelled "Failure detected", Failed, its message holding the line.  An
    event whose line lacks [EXIT STATUS], or holds [EXIT STATUS (0)]
    anywhere, has no such entry in the report. *)
Theorem failure_entries_additive (jobs logs : list string) :
  exists per_job failing,
    Spec.Selected Spec.marks_failure (Cron.parse_logs logs) failing
    /\ Cron.main_results jobs logs
       = (match jobs with [] => [Cron.no_crontab_entry] | _ :: _ => [] end)
           ++ per_job ++ map Cron.failure_entry failing
    /\ Forall2
         (fun j r =>
            exists toks,
              Spec.Tokens j toks
              /\ Report.job r = String.concat " " (skipn 5 toks)
              /\ (Report.status r = Report.success
                  <-> exists e, In e (Cron.parse_logs logs)
                                /\ Spec.Substring
                                     (String.concat " " (skipn 5 toks)) e)
              /\ (Report.status r = Report.missing
                  <-> ~ (exists e, In e (Cron.parse_logs logs)
                                   /\ Spec.Substring
                                        (String.concat " " (skipn 5 toks)) e)))
         jobs per_job
    /\ (forall e,
          Report.job (Cron.failure_entry e) = "Failure detected"
          /\ Report.status (Cron.failure_entry e) = Report.failed
          /\ Spec.Substring e (Report.message (Cron.failure_entry e)))
    /\ (forall e,
          In e (Cron.parse_logs logs) -> Spec.marks_failure e ->
          In e failing
          /\ In (Cron.failure_entry e) (Cron.main_results jobs logs))
    /\ (forall e,
          ~ Spec.Substring "EXIT STATUS" e
          \/ Spec.Substring "EXIT STATUS (0)" e ->
          ~ In e failing
          /\ ~ In (Cron.failure_entry e) (Cron.main_results jobs logs)).
Proof.
  destruct (cron_results_selected jobs logs) as (failing & Hsel & Heq).
  exists (map (Spec.job_entry (Cron.parse_logs logs)) jobs), failing.
  split; [exact Hsel |]. split; [exact Heq |].
  split; [apply Forall2_map_right; intros j; apply job_entry_by_tokens |].
  split; [apply failure_entry_spec |]. split.
  - intros e He Hm. split.
    + now apply (Selected_In _ _ _ Hsel).
    + now apply failure_entry_in_results.
  - intros e H. split.
    + intros Hin. apply (Selected_In _ _ _ Hsel) in Hin as [_ [H1 H2]]. tauto.
    + intros Hin. apply failure_entry_in_results in Hin as [_ [H1 H2]]. tauto.
Qed.

(** ** No declared job, on a machine *)

Lemma first_probe_fault (h : Cron.host) (s : Os.system) :
  Spec.probe s "cron.service" = Os.Fault -> Cron.main_on h s = Os.Raises.
Proof.
  intros H. unfold Cron.main_on.
  replace (Cron.get_logs s Cron.CHECK_MINUTES) with (@Os.Raises (list string));
    [reflexivity |].
  symmetry. apply get_logs_raises, first_active_raises.
  exists [], "cron.service", ["crond.service"; "fcron.service"].
  split; [reflexivity |]. split; [constructor | exact H].
Qed.

(** C5, as the code has it.  Without the [crontab] utility the job list is
    empty.  With an empty job list and the logs fetched, [main] builds the
    report whose results are the single entry "No user crontab", Missing,
    followed only by failure entries; when no event was extracted either, it
    is the only entry and the severity is Missing.  But when the first
    scheduler probe fails other than by a non-zero exit, as it does where
    [systemctl] is not installed, [main] raises and builds no report, job
    list empty or not. *)
Theorem no_crontab_report (h : Cron.host) (s : Os.system) :
  (Cron.which_crontab h = false -> Cron.get_crontab h = [])
  /\ (Cron.get_crontab h = [] ->
      forall logs,
        Cron.get_logs s Cron.CHECK_MINUTES = Os.Returns logs ->
        exists failing,
          Spec.Selected Spec.marks_failure (Cron.parse_logs logs) failing
          /\ Cron.main_on h s
             = Os.Returns
                 (Cron.send_discord_report
                    (Report.mk_entry "No user crontab" Report.missing
                       "No crontab entries found or 'crontab' command missing."
                     :: map Cron.failure_entry failing))
          /\ (Cron.parse_logs logs = [] ->
              Cron.main_on h s
              = Os.Returns
                  (Report.mk_embed Report.orange
                     [Spec.field_of Cron.status_icon
                        (Report.mk_entry "No user crontab" Report.missing
                           "No crontab entries found or 'crontab' command missing.")])
              /\ Spec.overall_severity
                   (Report.mk_embed Report.orange
                      [Spec.field_of Cron.status_icon
                         (Report.mk_entry "No user crontab" Report.missing
                            "No crontab entries found or 'crontab' command missing.")])
                 = Some Report.missing))
  /\ (Cron.which_crontab h = false ->
      Spec.probe s "cron.service" = Os.Fault ->
      Cron.get_crontab h = [] /\ Cron.main_on h s = Os.Raises).
Proof.
  split; [apply get_crontab_unavailable |]. split.
  - intros Hj logs Hl. unfold Cron.main_on. rewrite Hj, Hl.
    destruct (cron_results_selected [] logs) as (failing & Hsel & Heq).
    exists failing. split; [exact Hsel |]. split.
    + now rewrite Heq.
    + intros He. rewrite cron_results_shape, He. split; reflexivity.
  - intros Hw Hp. split; [now apply get_crontab_unavailable |].
    now apply first_probe_fault.
Qed.

(** ** The logs of fcron *)

(** X9.  [get_fcron_logs] never raises: the logs are the lines of the
    journal output when the journal answers, followed by the last lines of
    fcron.log when it can be read.  When neither source gives a line, the
    journal failing or answering with no line and the file giving none,
    [main] reports the single entry "No fcron activity" with severity
    Missing. *)
Theorem get_fcron_logs_sources (s : Os.system) (minutes : nat) :
  (forall output,
     Spec.journal_gives s "fcron.service" minutes output ->
     Fcron.get_fcron_logs s minutes
     = Py.splitlines output
         ++ Spec.file_tail (Os.path s "/var/log/fcron.log"))
  /\ ((forall output, ~ Spec.journal_gives s "fcron.service" minutes output) ->
      Fcron.get_fcron_logs s minutes
      = Spec.file_tail (Os.path s "/var/log/fcron.log"))
  /\ ((forall output,
         Spec.journal_gives s "fcron.service" Fcron.CHECK_MINUTES output ->
         Py.splitlines output = []) ->
      Spec.file_tail (Os.path s "/var/log/fcron.log") = [] ->
      Fcron.get_fcron_logs s Fcron.CHECK_MINUTES = []
      /\ Fcron.main_on s
         = Report.mk_embed Report.orange
             [Spec.field_of Fcron.status_icon Fcron.no_activity_entry]).
Proof.
  assert (Hyes : forall m output,
             Spec.journal_gives s "fcron.service" m output ->
             Fcron.get_fcron_logs s m
             = Py.splitlines output
                 ++ Spec.file_tail (Os.path s "/var/log/fcron.log")).
  { intros m output H.
    unfold Fcron.get_fcron_logs, Fcron.journal_argv, Fcron.log_file.
    unfold Spec.journal_gives in H. rewrite H.
    destruct (Os.path s "/var/log/fcron.log"); cbn [app Spec.file_tail];
      now rewrite ?app_nil_r. }
  assert (Hno : forall m,
             (forall output, ~ Spec.journal_gives s "fcron.service" m output) ->
             Fcron.get_fcron_logs s m
             = Spec.file_tail (Os.path s "/var/log/fcron.log")).
  { intros m H. unfold Fcron.get_fcron_logs, Fcron.journal_argv, Fcron.log_file.
    unfold Spec.journal_gives in H.
    destruct (Os.check_output s _) as [output| |] eqn:E;
      [now elim (H output) | |];
      destruct (Os.path s "/var/log/fcron.log"); reflexivity. }
  split; [apply Hyes |]. split; [apply Hno |].
  intros Hj Hf.
  assert (Hlogs : Fcron.get_fcron_logs s Fcron.CHECK_MINUTES = []).
  { destruct (Os.check_output s
                (Fcron.journal_argv
                   (Cron.str_of_nat Fcron.CHECK_MINUTES ++ "m ago")%string))
      as [output| |] eqn:E.
    - rewrite (Hyes _ output E), (Hj output E), Hf. reflexivity.
    - rewrite Hno, Hf; [reflexivity |].
      intros output H. unfold Spec.journal_gives in H.
      unfold Fcron.journal_argv in E. congruence.
    - rewrite Hno, Hf; [reflexivity |].
      intros output H. unfold Spec.journal_gives in H.
      unfold Fcron.journal_argv in E. congruence. }
  split; [exact Hlogs |]. unfold Fcron.main_on. now rewrite Hlogs.
Qed.

(** ** The two scripts on the same line *)

(** X18.  For an event whose exit-status text is [0], fcron's entry is
    Success and the cron report holds no failure entry.  For an extracted
    event that holds [EXIT STATUS] without any [EXIT STATUS (n)] token,
    fcron's entry is still Success while the cron report holds a failure
    entry for it. *)
Theorem exit_status_in_both_scripts (jobs logs : list string) (e : string) :
  (Spec.exit_text e "0" ->
   Report.status (Fcron.event_entry e) = Report.success
   /\ ~ In (Cron.failure_entry e) (Cron.main_results jobs logs))
  /\ (In e (Cron.parse_logs logs) ->
      Spec.Substring "EXIT STATUS" e -> Spec.no_token Spec.exit_head e ->
      Report.status (Fcron.event_entry e) = Report.success
      /\ In (Cron.failure_entry e) (Cron.main_results jobs logs)).
Proof.
  split.
  - intros H. split; [apply event_entry_success; now left |].
    intros Hin. apply failure_entry_in_results in Hin as [_ [_ Hn]].
    apply Hn.
    destruct H as (n & (pre & s & -> & _ & post & -> & _) & _).
    now exists pre, post.
  - intros He Hs Hn. split; [apply event_entry_success; now right |].
    apply failure_entry_in_results. split; [exact He |].
    split; [exact Hs |]. intros (pre & post & ->).
    apply (Hn (String.length pre) "0").
    exists pre, ("EXIT STATUS (0)" ++ post)%string.
    repeat split. exists post. repeat split. discriminate.
Qed.

(** ** At concrete inputs *)

(** C2 as first stated fails: the first [EXIT STATUS] of this line is not
    followed by [ (0)], yet the line adds no failure entry, because
    [EXIT STATUS (0)] occurs further on. *)
Lemma later_zero_hides_failure :
  Spec.marker_without_zero "cron: EXIT STATUS (1) and EXIT STATUS (0)"
  /\ Cron.parse_logs ["cron: EXIT STATUS (1) and EXIT STATUS (0)"]
     = ["cron: EXIT STATUS (1) and EXIT STATUS (0)"]
  /\ Cron.main_results ["* * * * * /usr/bin/backup.sh"]
       ["cron: EXIT STATUS (1) and EXIT STATUS (0)"]
     = [Report.mk_entry "/usr/bin/backup.sh" Report.missing
          "Did **not run** (but scheduled)."]
  /\ ~ In (Cron.failure_entry "cron: EXIT STATUS (1) and EXIT STATUS (0)")
         (Cron.main_results ["* * * * * /usr/bin/backup.sh"]
            ["cron: EXIT STATUS (1) and EXIT STATUS (0)"]).
Proof.
  split.
  - exists "cron: ", " (1) and EXIT STATUS (0)". split; [reflexivity |].
    intros [rest H]. discriminate H.
  - split; [reflexivity |]. split; [reflexivity |].
    intros [H | []]. discriminate H.
Qed.

Lemma eight_tokens :
  Spec.Tokens "*/5 * * * * /usr/bin/backup.sh   -q now"
    ["*/5"; "*"; "*"; "*"; "*"; "/usr/bin/backup.sh"; "-q"; "now"].
Proof. exact (split_Tokens "*/5 * * * * /usr/bin/backup.sh   -q now"). Qed.

Lemma two_tokens :
  Spec.Tokens "@reboot  /usr/local/bin/start"
    ["@reboot"; "/usr/local/bin/start"].
Proof. exact (split_Tokens "@reboot  /usr/local/bin/start"). Qed.

Lemma job_cmd_tokens_witness :
  Spec.Tokens "*/5 * * * * /usr/bin/backup.sh   -q now"
    ["*/5"; "*"; "*"; "*"; "*"; "/usr/bin/backup.sh"; "-q"; "now"]
  /\ Cron.job_cmd "*/5 * * * * /usr/bin/backup.sh   -q now"
     = "/usr/bin/backup.sh -q now"
  /\ Spec.Tokens "@reboot  /usr/local/bin/start"
       ["@reboot"; "/usr/local/bin/start"]
  /\ List.length ["@reboot"; "/usr/local/bin/start"] < 6
  /\ Cron.job_cmd "@reboot  /usr/local/bin/start" = "".
Proof.
  split; [exact eight_tokens |].
  split; [exact (proj1 (proj2 (job_cmd_tokens _) _ eight_tokens)) |].
  split; [exact two_tokens |]. split; [simpl; lia |].
  apply (proj2 (proj2 (job_cmd_tokens _) _ two_tokens)). simpl. lia.
Defined.

Lemma job_cmd_retokenised_witness :
  Spec.Tokens "*/5 * * * * /usr/bin/backup.sh   -q now"
    ["*/5"; "*"; "*"; "*"; "*"; "/usr/bin/backup.sh"; "-q"; "now"]
  /\ Cron.job_cmd "*/5 * * * * /usr/bin/backup.sh   -q now"
     = "/usr/bin/backup.sh -q now"
  /\ Spec.Tokens (Cron.job_cmd "*/5 * * * * /usr/bin/backup.sh   -q now")
       ["/usr/bin/backup.sh"; "-q"; "now"].
Proof.
  split; [exact eight_tokens |].
  split; [exact (proj1 (job_cmd_retokenised _ _ eight_tokens)) |].
  exact (proj1 (proj2 (job_cmd_retokenised _ _ eight_tokens))).
Defined.

Lemma backup_label_in_event :
  exists e,
    In e (Cron.parse_logs
            ["CRON[123]: (root) CMD (/usr/bin/backup.sh -q now)"])
    /\ Spec.Substring "/usr/bin/backup.sh -q now" e.
Proof.
  exists "CRON[123]: (root) CMD (/usr/bin/backup.sh -q now)".
  split; [left; reflexivity |]. apply str_in_spec. reflexivity.
Qed.

Lemma job_status_by_containment_witness :
  Forall
    (fun r => Report.job r = "/usr/bin/backup.sh -q now"
              /\ Report.status r = Report.success)
    (Spec.per_job_entries ["*/5 * * * * /usr/bin/backup.sh   -q now"]
       ["CRON[123]: (root) CMD (/usr/bin/backup.sh -q now)"])
  /\ (["*/5 * * * * /usr/bin/backup.sh   -q now"] <> []
      /\ Cron.parse_logs ["kernel: nothing for us"] = [])
  /\ Forall (fun r => Report.status r = Report.missing)
       (Cron.main_results ["*/5 * * * * /usr/bin/backup.sh   -q now"]
          ["kernel: nothing for us"]).
Proof.
  split; [| split].
  - pose proof (proj1 (job_status_by_containment
                         ["*/5 * * * * /usr/bin/backup.sh   -q now"]
                         ["CRON[123]: (root) CMD (/usr/bin/backup.sh -q now)"]))
      as H.
    remember (Spec.per_job_entries
                ["*/5 * * * * /usr/bin/backup.sh   -q now"]
                ["CRON[123]: (root) CMD (/usr/bin/backup.sh -q now)"])
      as rs eqn:E.
    clear E. inversion H as [| j r js rs' Hr Hrest Ej Er]. subst.
    inversion Hrest. subst. constructor; [| constructor].
    destruct Hr as (toks & HT & Hjob & Hran & _).
    apply Tokens_split in HT. subst toks.
    split; [exact Hjob |]. apply Hran. exact backup_label_in_event.
  - split; [discriminate | reflexivity].
  - apply (proj2 (job_status_by_containment
                    ["*/5 * * * * /usr/bin/backup.sh   -q now"]
                    ["kernel: nothing for us"])).
    + discriminate.
    + reflexivity.
Defined.

Lemma exit_one_marks_failure :
  In "CRON[5]: (root) CMD (job1) EXIT STATUS (1)"
    (Cron.parse_logs
       ["CRON[5]: (root) CMD (job1) EXIT STATUS (1)";
        "CRON[6]: (root) CMD (job2) EXIT STATUS (0)"])
  /\ Spec.marks_failure "CRON[5]: (root) CMD (job1) EXIT STATUS (1)".
Proof.
  split; [left; reflexivity |]. apply failure_test_spec. reflexivity.
Qed.

Lemma exit_zero_in_line :
  Spec.Substring "EXIT STATUS (0)" "CRON[6]: (root) CMD (job2) EXIT STATUS (0)".
Proof. apply str_in_spec. reflexivity. Qed.

Lemma failure_entries_additive_witness :
  Spec.marks_failure "CRON[5]: (root) CMD (job1) EXIT STATUS (1)"
  /\ In (Cron.failure_entry "CRON[5]: (root) CMD (job1) EXIT STATUS (1)")
       (Cron.main_results ["* * * * * job1"]
          ["CRON[5]: (root) CMD (job1) EXIT STATUS (1)";
           "CRON[6]: (root) CMD (job2) EXIT STATUS (0)"])
  /\ ~ In (Cron.failure_entry "CRON[6]: (root) CMD (job2) EXIT STATUS (0)")
         (Cron.main_results ["* * * * * job1"]
            ["CRON[5]: (root) CMD (job1) EXIT STATUS (1)";
             "CRON[6]: (root) CMD (job2) EXIT STATUS (0)"]).
Proof.
  destruct (failure_entries_additive
              ["* * * * * job1"]
              ["CRON[5]: (root) CMD (job1) EXIT STATUS (1)";
               "CRON[6]: (root) CMD (job2) EXIT STATUS (0)"])
    as (per_job & failing & _ & _ & _ & _ & Hemit & Hnone).
  split; [exact (proj2 exit_one_marks_failure) |]. split.
  - exact (proj2 (Hemit _ (proj1 exit_one_marks_failure)
                    (proj2 exit_one_marks_failure))).
  - exact (proj2 (Hnone _ (or_intror exit_zero_in_line))).
Defined.

Lemma no_crontab_report_witness :
  Cron.which_crontab (Cron.mk_host false Cron.CalledProcessError) = false
  /\ Spec.probe Sample.bare "cron.service" = Os.Fault
  /\ Cron.get_crontab (Cron.mk_host false Cron.CalledProcessError) = []
  /\ Cron.main_on (Cron.mk_host false Cron.CalledProcessError) Sample.bare
     = Os.Raises
  /\ Cron.get_logs Sample.silent Cron.CHECK_MINUTES = Os.Returns []
  /\ Cron.main_on (Cron.mk_host false Cron.CalledProcessError) Sample.silent
     = Os.Returns
         (Report.mk_embed Report.orange
            [Spec.field_of Cron.status_icon
               (Report.mk_entry "No user crontab" Report.missing
                  "No crontab entries found or 'crontab' command missing.")]).
Proof.
  split; [reflexivity |]. split; [reflexivity |].
  destruct (no_crontab_report (Cron.mk_host false Cron.CalledProcessError)
              Sample.bare) as (Hnone & _ & Hfault).
  split; [exact (Hnone eq_refl) |].
  split; [exact (proj2 (Hfault eq_refl eq_refl)) |].
  split; [reflexivity |].
  destruct (no_crontab_report (Cron.mk_host false Cron.CalledProcessError)
              Sample.silent) as (_ & Hrep & _).
  destruct (Hrep (Hnone eq_refl) [] eq_refl) as (failing & _ & _ & Hquiet).
  exact (proj1 (Hquiet eq_refl)).
Defined.

Lemma silent_journal_no_line (output : string) :
  Spec.journal_gives Sample.silent "fcron.service" Fcron.CHECK_MINUTES output ->
  Py.splitlines output = [].
Proof. intros H. injection H as <-. reflexivity. Qed.

Lemma get_fcron_logs_sources_witness :
  Spec.journal_gives Sample.silent "fcron.service" Fcron.CHECK_MINUTES ""
  /\ Spec.file_tail (Os.path Sample.silent "/var/log/fcron.log") = []
  /\ Fcron.main_on Sample.silent
     = Report.mk_embed Report.orange
         [Spec.field_of Fcron.status_icon Fcron.no_activity_entry].
Proof.
  split; [reflexivity |]. split; [reflexivity |].
  exact (proj2 (proj2 (proj2 (get_fcron_logs_sources Sample.silent 10))
                  silent_journal_no_line eq_refl)).
Defined.

Lemma killed_line_facts :
  In "cron[3]: Job x EXIT STATUS: killed"
    (Cron.parse_logs ["cron[3]: Job x EXIT STATUS: killed"])
  /\ Spec.Substring "EXIT STATUS" "cron[3]: Job x EXIT STATUS: killed"
  /\ Spec.no_token Spec.exit_head "cron[3]: Job x EXIT STATUS: killed".
Proof.
  split; [left; reflexivity |]. split.
  - apply str_in_spec. reflexivity.
  - apply search_exit_none. reflexivity.
Qed.

Lemma exit_status_in_both_scripts_witness :
  Spec.Substring "EXIT STATUS" "cron[3]: Job x EXIT STATUS: killed"
  /\ Report.status (Fcron.event_entry "cron[3]: Job x EXIT STATUS: killed")
     = Report.success
  /\ In (Cron.failure_entry "cron[3]: Job x EXIT STATUS: killed")
       (Cron.main_results ["* * * * * job1"]
          ["cron[3]: Job x EXIT STATUS: killed"]).
Proof.
  destruct killed_line_facts as (Hin & Hsub & Hno).
  split; [exact Hsub |].
  exact (proj2 (exit_status_in_both_scripts ["* * * * * job1"]
                  ["cron[3]: Job x EXIT STATUS: killed"] _) Hin Hsub Hno).
Defined.
